(** * Real-time fan-out layer: backend/src/utils/socketManager.ts

    A shallow embedding of the [SocketManager] class: the authentication
    middleware, the per-connection event handlers, the registry
    [connectedUsers] and the emit helpers used by the rest of the backend.

    The transport (socket.io) is represented by the part of its state the
    class observes: the live sockets with the rooms each one has joined, and
    the packets handed to the transport for delivery.

    A listener or an emit method that throws is an [Outcome] of its own,
    with the state the code has left at the throw.  The server is created
    with [connectionStateRecovery] and [skipMiddlewares: true]: the
    sessions the transport keeps of closed sockets and the connections it
    restores from them, past the middleware, are part of the reachable
    states ([Server], [onRecovery], [reachable]). *)

From Stdlib Require Import ZArith Ascii String List.
From stdpp Require Import base gmap sets list strings pretty.

Open Scope string_scope.

(** ** JavaScript values carried by events and control messages *)

(** Payloads are typed [any] in the source.  A number is carried as its
    decimal rendering, a [Date] as its epoch milliseconds, an object as a
    finite map from property names to values (property order plays no role
    in what the manager does).  Arrays and functions are not represented. *)
#[warnings="-register-all"]
Inductive JsVal :=
| JUndefined
| JNull
| JBool (b : bool)
| JNum (repr : string)
| JStr (s : string)
| JDate (ms : Z)
| JObj (fields : gmap string JsVal).

(** [if (x)] on an optional string: [undefined] and the empty string are
    falsy. *)
Definition truthy (x : option string) : bool :=
  match x with
  | Some s => negb (String.eqb s "")
  | None => false
  end.

(** [a || b] on optional strings. *)
Definition js_or (a b : option string) : option string :=
  if truthy a then a else b.

(** [s.replace(pat, '')] with a string pattern: only the first occurrence
    is removed. *)
Fixpoint remove_first (pat s : string) : string :=
  if String.prefix pat s then
    String.substring (String.length pat) (String.length s - String.length pat) s
  else
    match s with
    | EmptyString => EmptyString
    | String c s' => String c (remove_first pat s')
    end.

(** [v.k] for a property name that no prototype defines ([userId], [jobId],
    [jobTitle]): reading a property of [null] or [undefined] throws
    ([None]); on any other non-object it yields [undefined]. *)
Definition getProp (v : JsVal) (k : string) : option JsVal :=
  match v with
  | JUndefined | JNull => None
  | JObj f => Some (default JUndefined (f !! k))
  | _ => Some JUndefined
  end.

(** The properties of an object; other values have none of their own. *)
Definition fieldsOf (v : JsVal) : gmap string JsVal :=
  match v with
  | JObj f => f
  | _ => ∅
  end.

(** Own enumerable properties copied by [...v] inside an object literal. *)
Definition spread (v : JsVal) : gmap string JsVal :=
  match v with
  | JObj f => f
  | JStr s =>
      list_to_map
        (imap (λ i c, (pretty i, JStr (String c EmptyString)))
              (list_ascii_of_string s))
  | _ => ∅
  end.

(** ** Sockets, rooms and packets *)

(** [interface AuthenticatedSocket extends Socket]: the transport-assigned
    [id] and the three optional fields the middleware attaches. *)
Record AuthenticatedSocket := {
  socket_id : string;
  userId : option string;
  userType : option string;
  userEmail : option string
}.

(** A live socket together with the rooms it has joined through
    [socket.join]. *)
Record Conn := {
  conn_socket : AuthenticatedSocket;
  conn_rooms : gset string
}.

(** One event handed to the transport for one recipient socket. *)
Record Packet := {
  pkt_to : string;
  pkt_event : string;
  pkt_data : JsVal
}.

(** The manager: [connectedUsers] (userId -> socketId), the live sockets of
    [io] by socket id, and the packets emitted so far, oldest first. *)
Record SocketManager := {
  connectedUsers : gmap string string;
  io : gmap string Conn;
  sent : list Packet
}.

Definition initial : SocketManager :=
  {| connectedUsers := ∅; io := ∅; sent := [] |}.

(** *** Transport operations *)

Definition add_room (room : string) (c : Conn) : Conn :=
  {| conn_socket := conn_socket c; conn_rooms := {[room]} ∪ conn_rooms c |}.

Definition drop_room (room : string) (c : Conn) : Conn :=
  {| conn_socket := conn_socket c; conn_rooms := conn_rooms c ∖ {[room]} |}.

(** [socket.join(room)] *)
Definition socket_join (sid room : string) (s : SocketManager) : SocketManager :=
  {| connectedUsers := connectedUsers s;
     io := alter (add_room room) sid (io s);
     sent := sent s |}.

(** [socket.leave(room)] *)
Definition socket_leave (sid room : string) (s : SocketManager) : SocketManager :=
  {| connectedUsers := connectedUsers s;
     io := alter (drop_room room) sid (io s);
     sent := sent s |}.

(** [socket.emit(event, data)] *)
Definition socket_emit (sid event : string) (data : JsVal) (s : SocketManager)
  : SocketManager :=
  {| connectedUsers := connectedUsers s;
     io := io s;
     sent := sent s ++ [ {| pkt_to := sid; pkt_event := event; pkt_data := data |} ] |}.

(** The sockets currently in [room]. *)
Definition membersOf (room : string) (s : SocketManager) : list string :=
  (map_to_list (filter (λ kv, room ∈ conn_rooms kv.2) (io s))).*1.

(** [io.to(room).emit(event, data)]: one packet per socket in the room. *)
Definition io_to_emit (room event : string) (data : JsVal) (s : SocketManager)
  : SocketManager :=
  {| connectedUsers := connectedUsers s;
     io := io s;
     sent := sent s ++
             map (λ sid, {| pkt_to := sid; pkt_event := event; pkt_data := data |})
                 (membersOf room s) |}.

(** [io.emit(event, data)]: one packet per live socket. *)
Definition io_emit (event : string) (data : JsVal) (s : SocketManager)
  : SocketManager :=
  {| connectedUsers := connectedUsers s;
     io := io s;
     sent := sent s ++
             map (λ sid, {| pkt_to := sid; pkt_event := event; pkt_data := data |})
                 (map_to_list (io s)).*1 |}.

(** The packets addressed to socket [sid], in emission order. *)
Definition received (sid : string) (l : list Packet) : list Packet :=
  filter (λ p, pkt_to p = sid) l.

(** The rooms of socket [sid]; a socket that is not live is in no room. *)
Definition roomsOf (sid : string) (s : SocketManager) : gset string :=
  match io s !! sid with
  | Some c => conn_rooms c
  | None => ∅
  end.

(** ** Registry queries *)

(** [getConnectedUsersCount] *)
Definition getConnectedUsersCount (s : SocketManager) : nat :=
  size (connectedUsers s).

(** [isUserConnected] *)
Definition isUserConnected (uid : string) (s : SocketManager) : bool :=
  bool_decide (is_Some (connectedUsers s !! uid)).

(** ** The manager's code *)

(** A stored account document, as far as this subsystem and its siblings
    read it; [isActive] is the soft-delete flag the login routes check. *)
Record UserDoc := {
  _id : string;
  email : string;
  doc_userType : string;
  name : string;
  isActive : bool
}.

(** What [.select('_id email userType name')] keeps of a document. *)
Record SelectedUser := {
  sel_id : string;
  sel_email : string;
  sel_userType : string;
  sel_name : string
}.

Definition select_fields (d : UserDoc) : SelectedUser :=
  {| sel_id := _id d; sel_email := email d;
     sel_userType := doc_userType d; sel_name := name d |}.

(** [socket.handshake]: the [auth.token] field and the [authorization]
    header, either of which may be missing. *)
Record Handshake := {
  auth_token : option string;
  authorization : option string
}.

(** Messages a client can send on an open socket. *)
Inductive ClientMsg :=
| JoinJobRoom (jobId : JsVal)
| LeaveJobRoom (jobId : JsVal)
| KycStatusRequest
| Ping.

(** The one-character string holding a double quote. *)
Definition dquote : string := String "034"%char EmptyString.

Definition opt_str (x : option string) : JsVal :=
  match x with
  | Some s => JStr s
  | None => JUndefined
  end.

(** How a listener or a method of the manager ends: it returns, or it
    throws; either way with the manager as the code has left it by then. *)
Inductive Outcome :=
| Returned (s : SocketManager)
| Threw (s : SocketManager).

Definition stateOf (o : Outcome) : SocketManager :=
  match o with
  | Returned s => s
  | Threw s => s
  end.

(** Continue with the value of [x], or throw in state [s] when evaluating
    it threw. *)
Definition orThrow {A : Type} (x : option A) (s : SocketManager)
  (k : A → Outcome) : Outcome :=
  match x with
  | Some a => k a
  | None => Threw s
  end.

Section Manager.

(** External collaborators.  [jwt_verify] is [jwt.verify(token, secret)]:
    the decoded payload, or [None] when it throws.  [findById] is
    [User.findById(id)]: [None] when the query rejects, [Some None] when
    no document matches.  The last two render a [Date]. *)
Variable jwt_verify : string → option JsVal.
Variable findById : JsVal → option (option UserDoc).
Variable toISOString : Z → string.
Variable dateToString : Z → string.

(** Conversion performed by a template literal; [None] when it throws.
    An object is rendered by the [toString] it inherits, unless it has a
    property of that name of its own: the values represented here are not
    callable, so the conversion finds no method that yields a primitive and
    throws a [TypeError]. *)
Definition toString (v : JsVal) : option string :=
  match v with
  | JUndefined => Some "undefined"
  | JNull => Some "null"
  | JBool true => Some "true"
  | JBool false => Some "false"
  | JNum r => Some r
  | JStr s => Some s
  | JDate ms => Some (dateToString ms)
  | JObj f =>
      match f !! "toString" with
      | Some _ => None
      | None => Some "[object Object]"
      end
  end.

(** *** setupMiddleware *)

Definition handshake_token (hs : Handshake) : option string :=
  js_or (auth_token hs) (remove_first "Bearer " <$> authorization hs).

(** The body of the [try]: [inl msg] is [next(new Error(msg))] returned
    from inside it, [inr sock] is [next()], [None] is a thrown
    exception. *)
Definition authenticate (sid : string) (hs : Handshake)
  : option (string + AuthenticatedSocket) :=
  match handshake_token hs with
  | Some token =>
      if truthy (Some token) then
        decoded ← jwt_verify token;
        uid ← getProp decoded "userId";
        found ← findById uid;
        match select_fields <$> found with
        | None => Some (inl "Authentication error: User not found")
        | Some user =>
            Some (inr {| socket_id := sid;
                         userId := Some (sel_id user);
                         userType := Some (sel_userType user);
                         userEmail := Some (sel_email user) |})
        end
      else Some (inl "Authentication error: No token provided")
  | None => Some (inl "Authentication error: No token provided")
  end.

(** The middleware with its [catch]. *)
Definition middleware (sid : string) (hs : Handshake)
  : string + AuthenticatedSocket :=
  match authenticate sid hs with
  | Some r => r
  | None => inl "Authentication error: Invalid token"
  end.

(** *** setupEventHandlers *)

(** The acknowledgment sent to a socket once it is set up. *)
Definition connectedEvent (sock : AuthenticatedSocket) (now : Z) : JsVal :=
  JObj (<["message" := JStr "Successfully connected to server"]>
       (<["userId" := opt_str (userId sock)]>
       (<["userType" := opt_str (userType sock)]>
       (<["socketId" := JStr (socket_id sock)]>
       (<["timestamp" := JStr (toISOString now)]> ∅))))).

(** The body of the ['connection'] listener up to the registration of the
    per-socket listeners.  The transport has made the socket live before
    it fires the event. *)
Definition onConnection (sock : AuthenticatedSocket) (now : Z)
  (s : SocketManager) : SocketManager :=
  let sid := socket_id sock in
  let s0 :=
    {| connectedUsers := connectedUsers s;
       io := <[sid := {| conn_socket := sock; conn_rooms := ∅ |}]> (io s);
       sent := sent s |} in
  let s1 :=
    match userId sock with
    | Some uid =>
        if truthy (Some uid) then
          {| connectedUsers := <[uid := sid]> (connectedUsers s0);
             io := io s0; sent := sent s0 |}
        else s0
    | None => s0
    end in
  let s2 :=
    match userId sock with
    | Some uid =>
        if truthy (Some uid) then socket_join sid ("user:" +:+ uid) s1 else s1
    | None => s1
    end in
  let s3 :=
    match userType sock with
    | Some ut => if truthy (Some ut) then socket_join sid ut s2 else s2
    | None => s2
    end in
  let s4 :=
    if decide (userType sock = Some "admin") then socket_join sid "admin" s3
    else s3 in
  socket_emit sid "connected" (connectedEvent sock now) s4.

(** A connection attempt: the transport runs the middleware and fires
    ['connection'] only when it called [next()] without an error;
    otherwise the socket is refused and never becomes live. *)
Definition connect (sid : string) (hs : Handshake) (now : Z)
  (s : SocketManager) : SocketManager :=
  match middleware sid hs with
  | inl _ => s
  | inr sock => onConnection sock now s
  end.

(** The socket closes: the transport takes it out of every room and out
    of the live sockets, then the ['disconnect'] listener runs. *)
Definition disconnect (sid : string) (s : SocketManager) : SocketManager :=
  match io s !! sid with
  | None => s
  | Some c =>
      {| connectedUsers :=
           match userId (conn_socket c) with
           | Some uid =>
               if truthy (Some uid) then delete uid (connectedUsers s)
               else connectedUsers s
           | None => connectedUsers s
           end;
         io := delete sid (io s);
         sent := sent s |}
  end.

(** The listeners for inbound messages of a live socket.  The join and
    leave listeners render the job id first; when that throws, nothing has
    been done yet. *)
Definition listener (sid : string) (m : ClientMsg) (now : Z)
  (s : SocketManager) : Outcome :=
  match io s !! sid with
  | None => Returned s
  | Some c =>
      match m with
      | JoinJobRoom jobId =>
          orThrow (toString jobId) s
            (λ id, Returned (socket_join sid ("job:" +:+ id) s))
      | LeaveJobRoom jobId =>
          orThrow (toString jobId) s
            (λ id, Returned (socket_leave sid ("job:" +:+ id) s))
      | KycStatusRequest =>
          match userId (conn_socket c) with
          | Some uid =>
              if truthy (Some uid) then
                Returned
                  (socket_emit sid "kyc:status:response"
                     (JObj (<["userId" := JStr uid]>
                           (<["timestamp" := JDate now]> ∅))) s)
              else Returned s
          | None => Returned s
          end
      | Ping =>
          Returned
            (socket_emit sid "pong"
               (JObj (<["timestamp" := JStr (toISOString now)]> ∅)) s)
      end
  end.

(** The manager after an inbound message, whether its listener returned or
    threw. *)
Definition onMessage (sid : string) (m : ClientMsg) (now : Z)
  (s : SocketManager) : SocketManager :=
  stateOf (listener sid m now s).

(** A run of inbound messages, each with the socket it arrives on and
    the clock reading at its arrival. *)
Fixpoint onMessages (ms : list (string * ClientMsg * Z))
  (s : SocketManager) : SocketManager :=
  match ms with
  | [] => s
  | (sid, m, now) :: ms' => onMessages ms' (onMessage sid m now s)
  end.

(** *** Emit helpers *)

(** [emitKYCStatusUpdate]; [t1] and [t2] are the two [new Date()]. *)
Definition emitKYCStatusUpdate (uid : string) (statusData : JsVal)
  (t1 t2 : Z) (s : SocketManager) : SocketManager :=
  let s1 :=
    io_to_emit ("user:" +:+ uid) "kyc:status:update"
      (JObj (<["timestamp" := JDate t1]> (spread statusData))) s in
  io_to_emit "admin" "kyc:admin:update"
    (JObj (<["timestamp" := JDate t2]>
          (spread statusData ∪ {["userId" := JStr uid]}))) s1.

(** The object both emits of [notifyNewApplication] build, from the
    rendered job title. *)
Definition newApplicationEvent (applicationData : JsVal) (jobTitle : string)
  (t : Z) : JsVal :=
  JObj (<["type" := JStr "new_application"]>
       (<["application" := applicationData]>
       (<["timestamp" := JStr (toISOString t)]>
       (<["message" := JStr ("New application received for " +:+ dquote
                             +:+ jobTitle +:+ dquote)]> ∅)))).

(** [notifyNewApplication].  Reading and rendering [jobTitle] for the first
    event can throw before anything is emitted; rendering [jobId] for the
    name of the job room happens after the first emit, so a throw there
    leaves that emit done. *)
Definition notifyNewApplication (applicationData : JsVal)
  (employerId : string) (t1 t2 : Z) (s : SocketManager) : Outcome :=
  orThrow (getProp applicationData "jobTitle" ≫= toString) s (λ title1,
    let s1 :=
      io_to_emit ("user:" +:+ employerId) "new_application"
        (newApplicationEvent applicationData title1 t1) s in
    orThrow (getProp applicationData "jobId" ≫= toString) s1 (λ jobId,
      orThrow (getProp applicationData "jobTitle" ≫= toString) s1 (λ title2,
        Returned
          (io_to_emit ("job:" +:+ jobId) "new_application"
             (newApplicationEvent applicationData title2 t2) s1)))).

End Manager.

(** ** Derived notions used in the statements *)

(** The registry entry of user [uid] holds connection [sid]. *)
Definition registry_holds (s : SocketManager) (uid sid : string) : Prop :=
  connectedUsers s !! uid = Some sid.

(** The socket is live. *)
Definition isOpen (sid : string) (s : SocketManager) : Prop :=
  is_Some (io s !! sid).

(** The packets emitted on the way from [s] to [s']. *)
Definition emitted (s s' : SocketManager) : list Packet :=
  drop (length (sent s)) (sent s').

(** Role values accounts are created with (the registration and login
    routes accept no other [userType]). *)
Definition registered_roles : list string := ["student"; "employer"; "admin"].

(** Room names a client can reach through [join_job_room] and
    [leave_job_room]. *)
Definition is_job_room (room : string) : bool := String.prefix "job:" room.

(** The rooms a socket is put in are those its identity names. *)
Definition default_rooms (k : AuthenticatedSocket) : gset string :=
  (if decide (userType k = Some "admin") then {["admin"]} else ∅) ∪
  (match userType k with
   | Some r => if truthy (Some r) then {[r]} else ∅
   | None => ∅
   end) ∪
  (match userId k with
   | Some u => if truthy (Some u) then {["user:" +:+ u]} else ∅
   | None => ∅
   end).

(** The ways a connection attempt fails authentication: no token in the
    handshake, a token [jwt.verify] refuses (malformed, badly signed or
    expired), or a decoded subject no account matches. *)
Inductive AuthFailure (jwt_verify : string → option JsVal)
  (findById : JsVal → option (option UserDoc)) (hs : Handshake) : Prop :=
| NoToken :
    truthy (handshake_token hs) = false →
    AuthFailure jwt_verify findById hs
| InvalidToken (token : string) :
    handshake_token hs = Some token → token ≠ "" →
    jwt_verify token = None →
    AuthFailure jwt_verify findById hs
| UnknownUser (token : string) (decoded uid : JsVal) :
    handshake_token hs = Some token → token ≠ "" →
    jwt_verify token = Some decoded →
    getProp decoded "userId" = Some uid →
    findById uid = Some None →
    AuthFailure jwt_verify findById hs.

(** *** A small deployment for closed examples *)

Module Demo.

Definition account (i role : string) (active : bool) : UserDoc :=
  {| _id := i; email := i +:+ "@example.org"; doc_userType := role;
     name := i; isActive := active |}.

(** Tokens [tok-<id>] verify and carry [{userId: <id>}]; all others are
    refused. *)
Definition jwt_verify (tok : string) : option JsVal :=
  if String.prefix "tok-" tok then
    Some (JObj {["userId" :=
                 JStr (String.substring 4 (String.length tok - 4) tok)]})
  else None.

(** Four accounts; [u4] has been deactivated. *)
Definition findById (v : JsVal) : option (option UserDoc) :=
  match v with
  | JStr "u1" => Some (Some (account "u1" "student" true))
  | JStr "u2" => Some (Some (account "u2" "employer" true))
  | JStr "u3" => Some (Some (account "u3" "admin" true))
  | JStr "u4" => Some (Some (account "u4" "student" false))
  | _ => Some None
  end.

Definition toISOString (t : Z) : string := "T" +:+ pretty t.
Definition dateToString (t : Z) : string := "D" +:+ pretty t.

(** The names the transport refuses to emit. *)
Definition reserved (event : string) : bool :=
  bool_decide (event ∈ ["connect"; "connect_error"; "disconnect";
                        "disconnecting"; "newListener"; "removeListener"]).

Definition bearer (tok : string) : Handshake :=
  {| auth_token := Some tok; authorization := None |}.

Definition connect := connect jwt_verify findById toISOString.
Definition onMessage := onMessage toISOString dateToString.
Definition disconnect := disconnect.

Definition socket (sid uid role : string) : AuthenticatedSocket :=
  {| socket_id := sid; userId := Some uid; userType := Some role;
     userEmail := Some (uid +:+ "@example.org") |}.

End Demo.

(** ** The remaining emit helpers and the manager as a whole *)

(** A call of one of the public emit methods, with the clock readings of
    its [new Date()] expressions. *)
Inductive Dispatch :=
| EmitKYCStatusUpdate (uid : string) (statusData : JsVal) (t1 t2 : Z)
| EmitJobApproval (jobId : string) (jobData : JsVal) (t : Z)
| EmitNewApplication (employerId : string) (applicationData : JsVal) (t : Z)
| EmitToAdmins (event : string) (data : JsVal) (t : Z)
| EmitToUser (uid event : string) (data : JsVal) (t : Z)
| NotifyJobApproved (jobData : JsVal) (t : Z)
| NotifyJobRejected (jobData : JsVal) (employerId : string) (t : Z)
| NotifyNewApplication (applicationData : JsVal) (employerId : string) (t1 t2 : Z)
| NotifyApplicationStatusUpdate (applicationData : JsVal) (studentId : string) (t : Z).

(** The clock readings a call attaches to what it emits. *)
Definition clock_readings (d : Dispatch) : list Z :=
  match d with
  | EmitKYCStatusUpdate _ _ t1 t2 => [t1; t2]
  | EmitJobApproval _ _ t => [t]
  | EmitNewApplication _ _ t => [t]
  | EmitToAdmins _ _ t => [t]
  | EmitToUser _ _ _ t => [t]
  | NotifyJobApproved _ t => [t]
  | NotifyJobRejected _ _ t => [t]
  | NotifyNewApplication _ _ t1 t2 => [t1; t2]
  | NotifyApplicationStatusUpdate _ _ t => [t]
  end.

(** [emitJobApproval]: to every live socket. *)
Definition emitJobApproval (jobId : string) (jobData : JsVal) (t : Z)
  (s : SocketManager) : SocketManager :=
  io_emit "job:approved"
    (JObj (<["jobId" := JStr jobId]>
          (<["job" := jobData]>
          (<["timestamp" := JDate t]> ∅)))) s.

(** [emitNewApplication] *)
Definition emitNewApplication (employerId : string) (applicationData : JsVal)
  (t : Z) (s : SocketManager) : SocketManager :=
  io_to_emit ("user:" +:+ employerId) "application:new"
    (JObj (<["timestamp" := JDate t]> (spread applicationData))) s.

(** The socket the transport hands to the ['connection'] listener when it
    restores a session: a new socket object, on which the middleware has
    not run and which has none of the three identity fields. *)
Definition anonymous (sid : string) : AuthenticatedSocket :=
  {| socket_id := sid; userId := None; userType := None; userEmail := None |}.

(** The transport restores a socket: it is live again under its old id and
    in the rooms of its session, and the packets it missed are sent to it. *)
Definition restoreSocket (sid : string) (rooms : gset string)
  (missed : list (string * JsVal)) (s : SocketManager) : SocketManager :=
  {| connectedUsers := connectedUsers s;
     io := <[sid := {| conn_socket := anonymous sid; conn_rooms := rooms |}]> (io s);
     sent := sent s ++
             map (λ m, {| pkt_to := sid; pkt_event := m.1; pkt_data := m.2 |})
                 missed |}.

Section Dispatcher.

Variable jwt_verify : string → option JsVal.
Variable findById : JsVal → option (option UserDoc).
Variable toISOString : Z → string.
Variable dateToString : Z → string.

(** The event names the transport keeps for itself: its [emit] throws when
    given one of them.  The names the manager itself emits are not among
    them; only [emitToAdmins] and [emitToUser] take a name from their
    caller. *)
Variable reserved : string → bool.

(** [emitToAdmins] *)
Definition emitToAdmins (event : string) (data : JsVal) (t : Z)
  (s : SocketManager) : Outcome :=
  if reserved event then Threw s
  else Returned (io_to_emit "admin" event
                   (JObj (<["timestamp" := JDate t]> (spread data))) s).

(** [emitToUser] *)
Definition emitToUser (uid event : string) (data : JsVal) (t : Z)
  (s : SocketManager) : Outcome :=
  if reserved event then Threw s
  else Returned (io_to_emit ("user:" +:+ uid) event
                   (JObj (<["timestamp" := JDate t]> (spread data))) s).

(** [notifyJobApproved]: the log line reads and renders [jobData.jobTitle]
    and [jobData.companyName] before anything is emitted. *)
Definition notifyJobApproved (jobData : JsVal) (t : Z) (s : SocketManager)
  : Outcome :=
  orThrow (getProp jobData "jobTitle" ≫= toString dateToString) s (λ title,
    orThrow (getProp jobData "companyName" ≫= toString dateToString) s
      (λ company,
        Returned
          (io_to_emit "student" "job_approved"
             (JObj (<["type" := JStr "job_approved"]>
                   (<["job" := jobData]>
                   (<["timestamp" := JStr (toISOString t)]>
                   (<["message" :=
                        JStr ("New job approved: " +:+ title
                              +:+ " at " +:+ company)]> ∅)))))
             s))).

(** [notifyJobRejected] *)
Definition notifyJobRejected (jobData : JsVal) (employerId : string) (t : Z)
  (s : SocketManager) : Outcome :=
  orThrow (getProp jobData "jobTitle" ≫= toString dateToString) s (λ title,
    Returned
      (io_to_emit ("user:" +:+ employerId) "job_rejected"
         (JObj (<["type" := JStr "job_rejected"]>
               (<["job" := jobData]>
               (<["timestamp" := JStr (toISOString t)]>
               (<["message" :=
                    JStr ("Your job " +:+ dquote +:+ title +:+ dquote
                          +:+ " was rejected")]> ∅)))))
         s)).

(** [notifyApplicationStatusUpdate] *)
Definition notifyApplicationStatusUpdate (applicationData : JsVal)
  (studentId : string) (t : Z) (s : SocketManager) : Outcome :=
  orThrow (getProp applicationData "status" ≫= toString dateToString) s
    (λ status,
      Returned
        (io_to_emit ("user:" +:+ studentId) "application_status_update"
           (JObj (<["type" := JStr "application_status_update"]>
                 (<["application" := applicationData]>
                 (<["timestamp" := JStr (toISOString t)]>
                 (<["message" :=
                      JStr ("Your application status updated: "
                            +:+ status)]> ∅)))))
           s)).

(** A call of an emit method. *)
Definition dispatch (d : Dispatch) (s : SocketManager) : Outcome :=
  match d with
  | EmitKYCStatusUpdate uid statusData t1 t2 =>
      Returned (emitKYCStatusUpdate uid statusData t1 t2 s)
  | EmitJobApproval jobId jobData t =>
      Returned (emitJobApproval jobId jobData t s)
  | EmitNewApplication employerId applicationData t =>
      Returned (emitNewApplication employerId applicationData t s)
  | EmitToAdmins event data t => emitToAdmins event data t s
  | EmitToUser uid event data t => emitToUser uid event data t s
  | NotifyJobApproved jobData t => notifyJobApproved jobData t s
  | NotifyJobRejected jobData employerId t =>
      notifyJobRejected jobData employerId t s
  | NotifyNewApplication applicationData employerId t1 t2 =>
      notifyNewApplication toISOString dateToString applicationData
        employerId t1 t2 s
  | NotifyApplicationStatusUpdate applicationData studentId t =>
      notifyApplicationStatusUpdate applicationData studentId t s
  end.

(** The body of the ['connection'] listener, run on a socket the transport
    has already made live. *)
Definition connectionListener (sock : AuthenticatedSocket) (now : Z)
  (s0 : SocketManager) : SocketManager :=
  let sid := socket_id sock in
  let s1 :=
    match userId sock with
    | Some uid =>
        if truthy (Some uid) then
          {| connectedUsers := <[uid := sid]> (connectedUsers s0);
             io := io s0; sent := sent s0 |}
        else s0
    | None => s0
    end in
  let s2 :=
    match userId sock with
    | Some uid =>
        if truthy (Some uid) then socket_join sid ("user:" +:+ uid) s1 else s1
    | None => s1
    end in
  let s3 :=
    match userType sock with
    | Some ut => if truthy (Some ut) then socket_join sid ut s2 else s2
    | None => s2
    end in
  let s4 :=
    if decide (userType sock = Some "admin") then socket_join sid "admin" s3
    else s3 in
  socket_emit sid "connected" (connectedEvent toISOString sock now) s4.

(** A connection recovered by the transport.  The server is set up with
    [connectionStateRecovery] and [skipMiddlewares: true]: a client that
    comes back in time with the session of a closed socket gets a socket
    with the old id and rooms and the packets it missed, and ['connection']
    fires without the middleware having run. *)
Definition onRecovery (sid : string) (rooms : gset string)
  (missed : list (string * JsVal)) (now : Z) (s : SocketManager)
  : SocketManager :=
  connectionListener (anonymous sid) now (restoreSocket sid rooms missed s).

End Dispatcher.

(** The manager together with what the transport keeps for recovery: the
    rooms of closed sockets, by socket id. *)
Record Server := {
  manager : SocketManager;
  sessions : gmap string (gset string)
}.

Definition boot : Server := {| manager := initial; sessions := ∅ |}.

(** A step that concerns the manager alone. *)
Definition onManager (f : SocketManager → SocketManager) (sv : Server)
  : Server :=
  {| manager := f (manager sv); sessions := sessions sv |}.

(** A socket closes.  For the causes the transport takes as recoverable
    (a lost or timed-out connection, a server shutdown) it keeps the
    socket's rooms as a session before it takes the socket out of them;
    then the ['disconnect'] listener runs. *)
Definition close (sid : string) (recoverable : bool) (sv : Server) : Server :=
  {| manager := disconnect sid (manager sv);
     sessions :=
       match io (manager sv) !! sid with
       | Some c =>
           if recoverable then <[sid := conn_rooms c]> (sessions sv)
           else sessions sv
       | None => sessions sv
       end |}.

(** The transport drops a session that has become too old. *)
Definition expire (sid : string) (sv : Server) : Server :=
  {| manager := manager sv; sessions := delete sid (sessions sv) |}.

Section Reachable.

Variable jwt_verify : string → option JsVal.
Variable findById : JsVal → option (option UserDoc).
Variable toISOString : Z → string.
Variable dateToString : Z → string.
Variable reserved : string → bool.

(** The states the server can be in.  It starts empty.  The transport
    offers new connections under socket ids that are not in use, closes
    sockets, restores closed sockets from their sessions, drops sessions
    and hands over messages; the backend calls the emit methods.  When a
    listener or an emit method throws, the server goes on from the state
    the code has left.  The transport restores a session only within two
    minutes and from a packet it still holds; both conditions only take
    steps away, so every restoration the transport can make is a
    [reach_recover] step. *)
Inductive reachable : Server → Prop :=
| reach_boot : reachable boot
| reach_connect (sv : Server) (sid : string) (hs : Handshake) (now : Z) :
    reachable sv → ¬ isOpen sid (manager sv) →
    reachable (onManager (connect jwt_verify findById toISOString sid hs now) sv)
| reach_close (sv : Server) (sid : string) (recoverable : bool) :
    reachable sv → reachable (close sid recoverable sv)
| reach_recover (sv : Server) (sid : string) (rooms : gset string)
    (missed : list (string * JsVal)) (now : Z) :
    reachable sv → sessions sv !! sid = Some rooms →
    ¬ isOpen sid (manager sv) →
    reachable (onManager (onRecovery toISOString sid rooms missed now) sv)
| reach_expire (sv : Server) (sid : string) :
    reachable sv → reachable (expire sid sv)
| reach_message (sv : Server) (sid : string) (m : ClientMsg) (now : Z) :
    reachable sv →
    reachable (onManager (onMessage toISOString dateToString sid m now) sv)
| reach_dispatch (sv : Server) (d : Dispatch) :
    reachable sv →
    reachable (onManager
                 (λ s, stateOf (dispatch toISOString dateToString reserved d s))
                 sv).

End Reachable.

(** Every stored account carries one of the roles accounts are created
    with. *)
Definition db_roles_registered (findById : JsVal → option (option UserDoc))
  : Prop :=
  ∀ v doc, findById v = Some (Some doc) → doc_userType doc ∈ registered_roles.

(** The identity attached to a live socket. *)
Definition identityOf (sid : string) (s : SocketManager)
  : option AuthenticatedSocket :=
  conn_socket <$> io s !! sid.

(** What holds of the live sockets in every reachable state: a socket is
    filed under its own id; it either has none of the identity fields, as a
    restored socket, or all three, and then it is, apart from job rooms, in
    exactly the rooms its identity names. *)
Definition sockets_wf (s : SocketManager) : Prop :=
  ∀ sid k, identityOf sid s = Some k →
    socket_id k = sid ∧
    (userId k = None → k = anonymous sid) ∧
    (is_Some (userId k) →
       is_Some (userType k) ∧ is_Some (userEmail k) ∧
       ∀ room, is_job_room room = false →
         (room ∈ roomsOf sid s ↔ room ∈ default_rooms k)).

(** What holds of the registry in every reachable state: an entry names a
    live socket of that user. *)
Definition registry_wf (s : SocketManager) : Prop :=
  ∀ u sid, connectedUsers s !! u = Some sid →
    u ≠ "" ∧ ∃ k, identityOf sid s = Some k ∧ userId k = Some u.

(** With accounts of registered roles only, every socket with a role has
    one of them. *)
Definition roles_wf (s : SocketManager) : Prop :=
  ∀ sid k r, identityOf sid s = Some k → userType k = Some r →
    r ∈ registered_roles.

(** A packet carries, as its [timestamp], one of the clock readings of the
    call that emitted it: as a [Date], or rendered by [toISOString]. *)
Definition stamped (toISOString : Z → string) (d : Dispatch) (p : Packet)
  : Prop :=
  ∃ t, t ∈ clock_readings d ∧
    (fieldsOf (pkt_data p) !! "timestamp" = Some (JDate t) ∨
     fieldsOf (pkt_data p) !! "timestamp" = Some (JStr (toISOString t))).

(** *** Two example runs of the server *)

Module DemoServer.

(** A student on [c1] and an admin on [c2]. *)
Definition two_sockets : Server :=
  onManager (Demo.connect "c2" (Demo.bearer "tok-u3") 2)
    (onManager (Demo.connect "c1" (Demo.bearer "tok-u1") 1) boot).

(** The student's connection is lost and restored by the transport. *)
Definition restored : Server :=
  onManager
    (onRecovery Demo.toISOString "c1"
       (default_rooms (Demo.socket "c1" "u1" "student")) [] 5)
    (close "c1" true two_sockets).

End DemoServer.

(** * Properties *)

#[local] Set Warnings "-clear-no-such-hyp".

(** ** Basic facts about the transport operations *)

Lemma truthy_Some (u : string) : truthy (Some u) = true ↔ u ≠ "".
Proof.
  unfold truthy. destruct (String.eqb_spec u ""); simpl; split; congruence.
Qed.

Lemma job_room_is_job_room (x : string) : is_job_room ("job:" +:+ x) = true.
Proof. unfold is_job_room. simpl. by destruct x. Qed.

Lemma user_room_not_job_room (u : string) : is_job_room ("user:" +:+ u) = false.
Proof. reflexivity. Qed.

Lemma registered_role_not_job_room (r : string) :
  r ∈ registered_roles → is_job_room r = false.
Proof.
  unfold registered_roles. intros H.
  repeat (apply elem_of_cons in H as [-> | H]; [reflexivity |]).
  by apply elem_of_nil in H.
Qed.

Lemma roomsOf_socket_join (sid sid' room : string) (s : SocketManager) :
  roomsOf sid (socket_join sid' room s) =
  if decide (sid' = sid) then
    (if decide (isOpen sid s) then {[room]} ∪ roomsOf sid s else ∅)
  else roomsOf sid s.
Proof.
  unfold roomsOf, socket_join, isOpen; simpl.
  rewrite lookup_alter. case_decide as Hs.
  - subst sid'. case_decide as Ho.
    + destruct Ho as [c ->]. done.
    + destruct (io s !! sid) as [c|] eqn:E; [| done].
      destruct Ho. by eexists.
  - done.
Qed.

Lemma roomsOf_socket_leave (sid sid' room : string) (s : SocketManager) :
  roomsOf sid (socket_leave sid' room s) =
  if decide (sid' = sid) then roomsOf sid s ∖ {[room]} else roomsOf sid s.
Proof.
  unfold roomsOf, socket_leave; simpl.
  rewrite lookup_alter. case_decide as Hs.
  - subst sid'. destruct (io s !! sid) as [c|]; simpl; [done |].
    symmetry. apply leibniz_equiv, empty_difference.
  - done.
Qed.

Lemma elem_of_membersOf (sid room : string) (s : SocketManager) :
  sid ∈ membersOf room s ↔ isOpen sid s ∧ room ∈ roomsOf sid s.
Proof.
  unfold membersOf, isOpen, roomsOf. rewrite list_elem_of_fmap. split.
  - intros [[k c] [-> Hin]]. apply elem_of_map_to_list in Hin.
    apply map_lookup_filter_Some in Hin as [Hl Hr]. simpl in *.
    rewrite Hl. split; [by eexists | done].
  - intros [[c Hc] Hr]. rewrite Hc in Hr. exists (sid, c). split; [done |].
    apply elem_of_map_to_list. by apply map_lookup_filter_Some.
Qed.

Lemma NoDup_membersOf (room : string) (s : SocketManager) :
  NoDup (membersOf room s).
Proof. unfold membersOf. apply NoDup_fst_map_to_list. Qed.

Lemma received_app (sid : string) (l1 l2 : list Packet) :
  received sid (l1 ++ l2) = (received sid l1 ++ received sid l2)%list.
Proof. unfold received. apply filter_app. Qed.

(** A fan-out over a duplicate-free list of sockets hands each of them one
    packet and nobody else any. *)
Lemma received_fanout (sid event : string) (data : JsVal) (l : list string) :
  NoDup l →
  received sid
    (map (λ x, {| pkt_to := x; pkt_event := event; pkt_data := data |}) l) =
  if decide (sid ∈ l)
  then [ {| pkt_to := sid; pkt_event := event; pkt_data := data |} ]
  else [].
Proof.
  unfold received. induction 1 as [| x l Hx Hnd IH].
  - by case_decide as Hin; [apply elem_of_nil in Hin |].
  - rewrite fmap_cons, filter_cons; simpl.
    change (map ?f l) with (f <$> l) in IH. rewrite IH.
    destruct (decide (x = sid)) as [-> | Hne].
    + rewrite (decide_False (P := sid ∈ l)) by done.
      rewrite (decide_True (P := sid ∈ sid :: l)) by apply list_elem_of_here.
      done.
    + destruct (decide (sid ∈ l)) as [Hin | Hin].
      * rewrite (decide_True (P := sid ∈ x :: l)); [done |].
        by apply list_elem_of_further.
      * rewrite (decide_False (P := sid ∈ x :: l)); [done |].
        intros [-> | ?]%elem_of_cons; done.
Qed.

Lemma emitted_app (s s' : SocketManager) (l : list Packet) :
  sent s' = (sent s ++ l)%list → emitted s s' = l.
Proof. unfold emitted. intros ->. by rewrite drop_app_length. Qed.

(** ** What the ['connection'] listener leaves behind *)

Lemma connectedUsers_onConnection iso (k : AuthenticatedSocket) (now : Z)
  (s : SocketManager) :
  connectedUsers (onConnection iso k now s) =
  match userId k with
  | Some u =>
      if truthy (Some u) then <[u := socket_id k]> (connectedUsers s)
      else connectedUsers s
  | None => connectedUsers s
  end.
Proof.
  unfold onConnection.
  destruct (userId k) as [u|]; [destruct (truthy (Some u)) |];
    (destruct (userType k) as [r|]; [destruct (truthy (Some r)) |]);
    case_decide; reflexivity.
Qed.

Lemma sent_onConnection iso (k : AuthenticatedSocket) (now : Z)
  (s : SocketManager) :
  sent (onConnection iso k now s) =
  (sent s ++ [ {| pkt_to := socket_id k; pkt_event := "connected";
                  pkt_data := connectedEvent iso k now |} ])%list.
Proof.
  unfold onConnection.
  destruct (userId k) as [u|]; [destruct (truthy (Some u)) |];
    (destruct (userType k) as [r|]; [destruct (truthy (Some r)) |]);
    case_decide; reflexivity.
Qed.

Lemma io_onConnection iso (k : AuthenticatedSocket) (now : Z)
  (s : SocketManager) :
  io (onConnection iso k now s) =
  <[socket_id k := {| conn_socket := k; conn_rooms := default_rooms k |}]> (io s).
Proof.
  unfold onConnection, default_rooms.
  destruct (userId k) as [u|]; [destruct (truthy (Some u)) |];
    (destruct (userType k) as [r|]; [destruct (truthy (Some r)) |]);
    case_decide; unfold socket_emit, socket_join; simpl;
    rewrite ?alter_insert_eq; unfold add_room; simpl;
    do 2 f_equal; set_solver.
Qed.

Lemma roomsOf_onConnection iso (k : AuthenticatedSocket) (now : Z)
  (s : SocketManager) :
  roomsOf (socket_id k) (onConnection iso k now s) = default_rooms k.
Proof. unfold roomsOf. by rewrite io_onConnection, lookup_insert_eq. Qed.

(** ** C1: the registry entry of a user *)

(** C1, as stated, fails: user [u1] opens connection [c1] and then [c2];
    after both are registered the entry of [u1] holds [c2] and not [c1],
    and the count is 1, not 2. *)
Lemma registry_two_connections_counterexample :
  let s := Demo.connect "c2" (Demo.bearer "tok-u1") 2
             (Demo.connect "c1" (Demo.bearer "tok-u1") 1 initial) in
  isOpen "c1" s ∧ isOpen "c2" s ∧
  registry_holds s "u1" "c2" ∧
  ¬ registry_holds s "u1" "c1" ∧
  getConnectedUsersCount s = 1.
Proof.
  repeat split; try (by vm_compute; eexists); try (by vm_compute).
Qed.

(** C1, amended: the registry maps a userId to one connection identifier,
    the one registered last.  When two sockets of the same user are
    registered one after the other, the entry of the user is the second
    socket's id (and therefore not the first one's), the user is reported
    connected, and the second registration does not change the count: the
    user is counted once. *)
Theorem registry_keeps_latest_connection iso (k1 k2 : AuthenticatedSocket)
  (u : string) (now1 now2 : Z) (s : SocketManager) :
  userId k1 = Some u → userId k2 = Some u → u ≠ "" →
  let s1 := onConnection iso k1 now1 s in
  let s2 := onConnection iso k2 now2 s1 in
  registry_holds s2 u (socket_id k2) ∧
  (socket_id k1 ≠ socket_id k2 → ¬ registry_holds s2 u (socket_id k1)) ∧
  isUserConnected u s2 = true ∧
  getConnectedUsersCount s2 = getConnectedUsersCount s1 ∧
  getConnectedUsersCount s2 = size (<[u := socket_id k2]> (connectedUsers s)).
Proof.
  intros H1 H2 Hu s1 s2. apply truthy_Some in Hu.
  assert (E1 : connectedUsers s1 = <[u := socket_id k1]> (connectedUsers s)).
  { unfold s1. by rewrite connectedUsers_onConnection, H1, Hu. }
  assert (E2 : connectedUsers s2 = <[u := socket_id k2]> (connectedUsers s)).
  { unfold s2. rewrite connectedUsers_onConnection, H2, Hu, E1.
    apply insert_insert_eq. }
  unfold registry_holds, isUserConnected, getConnectedUsersCount.
  rewrite E2. repeat split.
  - apply lookup_insert_eq.
  - rewrite lookup_insert_eq. congruence.
  - apply bool_decide_eq_true. rewrite lookup_insert_eq. by eexists.
  - rewrite E1. by rewrite !map_size_insert.
Qed.

Lemma registry_keeps_latest_connection_witness :
  let s1 := onConnection Demo.toISOString (Demo.socket "c1" "u1" "student") 1 initial in
  let s2 := onConnection Demo.toISOString (Demo.socket "c2" "u1" "student") 2 s1 in
  registry_holds s2 "u1" "c2" ∧
  ("c1" ≠ "c2" → ¬ registry_holds s2 "u1" "c1") ∧
  isUserConnected "u1" s2 = true ∧
  getConnectedUsersCount s2 = getConnectedUsersCount s1 ∧
  getConnectedUsersCount s2 = size (<["u1" := "c2"]> (connectedUsers initial)).
Proof.
  apply (registry_keeps_latest_connection Demo.toISOString
           (Demo.socket "c1" "u1" "student") (Demo.socket "c2" "u1" "student")
           "u1" 1 2 initial); [reflexivity | reflexivity | discriminate].
Defined.

(** ** C2: the state after a disconnect *)

(** A socket that has closed is in no room. *)
Lemma disconnect_leaves_every_room (sid room : string) (s : SocketManager) :
  sid ∉ membersOf room (disconnect sid s).
Proof.
  rewrite elem_of_membersOf. unfold isOpen, disconnect. intros [[c Hc] _].
  destruct (io s !! sid) as [c0|] eqn:E; simpl in Hc.
  - by rewrite lookup_delete_eq in Hc.
  - congruence.
Qed.

(** When the closing socket is the one the registry holds for its user,
    the user is reported offline afterwards. *)
Lemma disconnect_unregisters (sid u : string) (c : Conn) (s : SocketManager) :
  io s !! sid = Some c → userId (conn_socket c) = Some u → u ≠ "" →
  isUserConnected u (disconnect sid s) = false.
Proof.
  intros Hc Hu Hne. apply truthy_Some in Hne.
  unfold isUserConnected, disconnect. rewrite Hc, Hu, Hne. simpl.
  apply bool_decide_eq_false. rewrite lookup_delete_eq. by intros [? ?].
Qed.

(** C2, on the input where the code departs from it: user [u1] holds the
    connections [c1] and [c2]; [c1] closes.  The closed socket is gone from
    every room, and [c2] is still open and still in the personal room of
    [u1], yet [isUserConnected] reports [u1] as not connected and the
    registry counts nobody. *)
Theorem disconnect_with_second_connection_open :
  let s := Demo.connect "c2" (Demo.bearer "tok-u1") 2
             (Demo.connect "c1" (Demo.bearer "tok-u1") 1 initial) in
  let s' := Demo.disconnect "c1" s in
  (∀ room, "c1" ∉ membersOf room s') ∧
  isOpen "c2" s' ∧
  membersOf "user:u1" s' = ["c2"] ∧
  isUserConnected "u1" s = true ∧
  isUserConnected "u1" s' = false ∧
  getConnectedUsersCount s' = 0.
Proof.
  intros s s'. split; [| repeat split].
  - intros room. apply disconnect_leaves_every_room.
  - by vm_compute; eexists.
Qed.

(** ** C3 and C4: the outcome of the authentication middleware *)

Lemma middleware_no_token jwt db (sid : string) (hs : Handshake) :
  truthy (handshake_token hs) = false →
  middleware jwt db sid hs = inl "Authentication error: No token provided".
Proof.
  unfold middleware, authenticate. intros H.
  destruct (handshake_token hs) as [tok|]; [by rewrite H | done].
Qed.

Lemma middleware_invalid_token jwt db (sid token : string) (hs : Handshake) :
  handshake_token hs = Some token → token ≠ "" → jwt token = None →
  middleware jwt db sid hs = inl "Authentication error: Invalid token".
Proof.
  unfold middleware, authenticate. intros -> Ht%truthy_Some Hj.
  by rewrite Ht, Hj.
Qed.

Lemma middleware_user_not_found jwt db (sid token : string) (hs : Handshake)
  (decoded uid : JsVal) :
  handshake_token hs = Some token → token ≠ "" →
  jwt token = Some decoded → getProp decoded "userId" = Some uid →
  db uid = Some None →
  middleware jwt db sid hs = inl "Authentication error: User not found".
Proof.
  unfold middleware, authenticate. intros -> Ht%truthy_Some Hj Hp Hd.
  rewrite Ht, Hj. simpl. rewrite Hp. simpl. by rewrite Hd.
Qed.

(** Whatever document the lookup returns is accepted: the middleware reads
    its id, role and email and nothing else. *)
Lemma middleware_accepts_found_account jwt db (sid token : string)
  (hs : Handshake) (decoded uid : JsVal) (doc : UserDoc) :
  handshake_token hs = Some token → token ≠ "" →
  jwt token = Some decoded → getProp decoded "userId" = Some uid →
  db uid = Some (Some doc) →
  middleware jwt db sid hs =
  inr {| socket_id := sid; userId := Some (_id doc);
         userType := Some (doc_userType doc); userEmail := Some (email doc) |}.
Proof.
  unfold middleware, authenticate. intros -> Ht%truthy_Some Hj Hp Hd.
  rewrite Ht, Hj. simpl. rewrite Hp. simpl. by rewrite Hd.
Qed.

(** C3, on the input where the code departs from it: account [u4] exists
    and is deactivated; a connection presenting a valid token for it is
    accepted by the middleware, registered, and put in its rooms. *)
Theorem deactivated_account_is_accepted :
  let hs := Demo.bearer "tok-u4" in
  let s := Demo.connect "c9" hs 1 initial in
  Demo.findById (JStr "u4") = Some (Some (Demo.account "u4" "student" false)) ∧
  isActive (Demo.account "u4" "student" false) = false ∧
  middleware Demo.jwt_verify Demo.findById "c9" hs =
    inr (Demo.socket "c9" "u4" "student") ∧
  isUserConnected "u4" s = true ∧
  registry_holds s "u4" "c9" ∧
  membersOf "user:u4" s = ["c9"] ∧
  membersOf "student" s = ["c9"].
Proof. repeat split. Qed.

(** C4: a connection attempt that fails authentication (no token, a token
    that does not verify, or an unknown user) is refused by the middleware
    and leaves the manager as it was: the count of connected users is
    unchanged, the socket is in no room, and no registry entry holds it. *)
Theorem failed_authentication_changes_nothing jwt db iso
  (sid : string) (hs : Handshake) (now : Z) (s : SocketManager) :
  AuthFailure jwt db hs →
  let s' := connect jwt db iso sid hs now s in
  (∃ e, middleware jwt db sid hs = inl e) ∧
  s' = s ∧
  getConnectedUsersCount s' = getConnectedUsersCount s ∧
  (¬ isOpen sid s → ∀ room, sid ∉ membersOf room s') ∧
  (∀ u, ¬ registry_holds s u sid → ¬ registry_holds s' u sid).
Proof.
  intros Hf s'.
  assert (He : ∃ e, middleware jwt db sid hs = inl e).
  { destruct Hf as [H | tok H1 H2 H3 | tok d uid H1 H2 H3 H4 H5]; eexists.
    - by apply middleware_no_token.
    - by eapply middleware_invalid_token.
    - by eapply middleware_user_not_found. }
  assert (Es : s' = s).
  { destruct He as [e He]. unfold s', connect. by rewrite He. }
  rewrite Es. repeat split; try done.
  intros Hclosed room [Ho _]%elem_of_membersOf. done.
Qed.

Lemma failed_authentication_changes_nothing_witness :
  let s := Demo.connect "c1" (Demo.bearer "tok-u1") 1 initial in
  let s' := Demo.connect "c7" (Demo.bearer "expired") 2 s in
  (∃ e, middleware Demo.jwt_verify Demo.findById "c7" (Demo.bearer "expired")
        = inl e) ∧
  s' = s ∧
  getConnectedUsersCount s' = getConnectedUsersCount s ∧
  (¬ isOpen "c7" s → ∀ room, "c7" ∉ membersOf room s') ∧
  (∀ u, ¬ registry_holds s u "c7" → ¬ registry_holds s' u "c7").
Proof.
  apply (failed_authentication_changes_nothing Demo.jwt_verify Demo.findById
           Demo.toISOString "c7" (Demo.bearer "expired") 2).
  apply (InvalidToken _ _ _ "expired"); [reflexivity | discriminate | reflexivity].
Defined.

(** ** C5: what the KYC trigger delivers *)

Lemma received_io_to_emit (sid room event : string) (data : JsVal)
  (s : SocketManager) :
  received sid (emitted s (io_to_emit room event data s)) =
  if decide (sid ∈ membersOf room s)
  then [ {| pkt_to := sid; pkt_event := event; pkt_data := data |} ]
  else [].
Proof.
  unfold emitted, io_to_emit; simpl. rewrite drop_app_length.
  apply received_fanout, NoDup_membersOf.
Qed.

(** C5, as stated, fails: with a student [u1] on [c1] and an admin on [a1],
    the event the admin connection receives for a status change of [u1] is
    not the payload with only a timestamp added: it carries a [userId]
    property as well. *)
Lemma kyc_admin_payload_counterexample :
  let s := Demo.connect "a1" (Demo.bearer "tok-u3") 2
             (Demo.connect "c1" (Demo.bearer "tok-u1") 1 initial) in
  let payload := JObj {["status" := JStr "approved"]} in
  let s' := emitKYCStatusUpdate "u1" payload 5 5 s in
  ∃ p, p ∈ received "a1" (emitted s s') ∧
       ¬ ∃ t, pkt_data p = JObj (<["timestamp" := t]> (spread payload)).
Proof.
  intros s payload s'.
  exists {| pkt_to := "a1"; pkt_event := "kyc:admin:update";
            pkt_data := JObj (<["timestamp" := JDate 5]>
                             (spread payload ∪ {["userId" := JStr "u1"]})) |}.
  split.
  - assert (E : received "a1" (emitted s s') =
                [ {| pkt_to := "a1"; pkt_event := "kyc:admin:update";
                     pkt_data := JObj (<["timestamp" := JDate 5]>
                       (spread payload ∪ {["userId" := JStr "u1"]})) |} ])
      by reflexivity.
    rewrite E. apply list_elem_of_here.
  - intros [t Ht]. apply (f_equal (λ v, fieldsOf v !! "userId")) in Ht.
    cbn [pkt_data fieldsOf] in Ht.
    rewrite !lookup_insert_ne in Ht by discriminate.
    vm_compute in Ht. discriminate.
Qed.

(** C5, amended: the trigger emits one ['kyc:status:update'] event to every
    socket in the personal room of the subject and one ['kyc:admin:update']
    event to every socket in the admin room, and nothing else.  The first
    carries the properties of the payload with [timestamp] set by the
    dispatcher; the second carries the same properties, a [timestamp] set by
    the dispatcher, and a [userId] property, which is the payload's own
    [userId] when it has one and the subject's id otherwise. *)
Theorem kyc_dispatch_payloads (uid : string) (statusData : JsVal)
  (t1 t2 : Z) (s : SocketManager) :
  let s' := emitKYCStatusUpdate uid statusData t1 t2 s in
  ∃ f g : gmap string JsVal,
    (f !! "timestamp" = Some (JDate t1) ∧
     ∀ k, k ≠ "timestamp" → f !! k = spread statusData !! k) ∧
    (g !! "timestamp" = Some (JDate t2) ∧
     g !! "userId" = Some (default (JStr uid) (spread statusData !! "userId")) ∧
     ∀ k, k ≠ "timestamp" → k ≠ "userId" → g !! k = spread statusData !! k) ∧
    io s' = io s ∧ connectedUsers s' = connectedUsers s ∧
    ∀ sid,
      received sid (emitted s s') =
      ((if decide (sid ∈ membersOf ("user:" +:+ uid) s)
        then [ {| pkt_to := sid; pkt_event := "kyc:status:update";
                  pkt_data := JObj f |} ]
        else []) ++
       (if decide (sid ∈ membersOf "admin" s)
        then [ {| pkt_to := sid; pkt_event := "kyc:admin:update";
                  pkt_data := JObj g |} ]
        else []))%list.
Proof.
  intros s'.
  exists (<["timestamp" := JDate t1]> (spread statusData)),
         (<["timestamp" := JDate t2]>
            (spread statusData ∪ {["userId" := JStr uid]})).
  split; [| split; [| split; [done | split; [done |]]]].
  - split; [apply lookup_insert_eq |].
    intros k Hk. by rewrite lookup_insert_ne.
  - split; [apply lookup_insert_eq |]. split.
    + rewrite lookup_insert_ne by discriminate.
      rewrite lookup_union, lookup_singleton_eq.
      by destruct (spread statusData !! "userId").
    + intros k Hk1 Hk2. rewrite lookup_insert_ne by done.
      rewrite lookup_union, lookup_singleton_ne by done.
      by destruct (spread statusData !! k).
  - intros sid. unfold s', emitKYCStatusUpdate, emitted, io_to_emit; simpl.
    rewrite <- app_assoc, drop_app_length, received_app.
    unfold membersOf at 2; simpl. fold (membersOf "admin" s).
    by rewrite !received_fanout by apply NoDup_membersOf.
Qed.

(** ** C6: a new application reaches the employer through two rooms *)

Lemma getProp_total (v x : JsVal) (k k' : string) :
  getProp v k = Some x → is_Some (getProp v k').
Proof. destruct v; simpl; intros H; try discriminate; by eexists. Qed.

Lemma membersOf_io (room : string) (s s' : SocketManager) :
  io s' = io s → membersOf room s' = membersOf room s.
Proof. unfold membersOf. by intros ->. Qed.

(** C6: a live socket [B] that is in the personal room of employer [u2] and
    in the room of the job the application is for receives exactly two
    events from [notifyNewApplication] for [u2]: both are named
    ['new_application'], both carry the application payload, and each
    carries the timestamp taken for its emit.  The application is one whose
    [jobId] and [jobTitle] a template literal can render, as it can every
    string, number, boolean, date and plain object. *)
Theorem new_application_received_twice iso dts (B u2 : string)
  (applicationData jobId jobTitle : JsVal) (job title : string) (t1 t2 : Z)
  (s : SocketManager) :
  isOpen B s →
  "user:" +:+ u2 ∈ roomsOf B s →
  getProp applicationData "jobId" = Some jobId →
  toString dts jobId = Some job →
  getProp applicationData "jobTitle" = Some jobTitle →
  toString dts jobTitle = Some title →
  "job:" +:+ job ∈ roomsOf B s →
  ∃ s' e1 e2,
    notifyNewApplication iso dts applicationData u2 t1 t2 s = Returned s' ∧
    received B (emitted s s') = [e1; e2] ∧
    pkt_event e1 = "new_application" ∧
    pkt_event e2 = "new_application" ∧
    fieldsOf (pkt_data e1) !! "application" = Some applicationData ∧
    fieldsOf (pkt_data e2) !! "application" = Some applicationData ∧
    fieldsOf (pkt_data e1) !! "timestamp" = Some (JStr (iso t1)) ∧
    fieldsOf (pkt_data e2) !! "timestamp" = Some (JStr (iso t2)).
Proof.
  intros Ho Hu Hj Hjr Ht Htr Hr.
  unfold notifyNewApplication. rewrite Ht, Hj. simpl. rewrite Htr, Hjr. simpl.
  eexists _, _, _. split; [reflexivity |]. split.
  - unfold emitted, io_to_emit; simpl.
    rewrite <- app_assoc, drop_app_length, received_app.
    unfold membersOf at 2; simpl.
    fold (membersOf ("job:" +:+ job) s).
    rewrite !received_fanout by apply NoDup_membersOf.
    rewrite !decide_True by (by apply elem_of_membersOf).
    reflexivity.
  - simpl. repeat split; by simplify_map_eq.
Qed.

Lemma new_application_received_twice_witness :
  let s := Demo.onMessage "cB" (JoinJobRoom (JStr "42")) 2
             (Demo.connect "cB" (Demo.bearer "tok-u2") 1 initial) in
  let applicationData :=
    JObj (<["jobId" := JStr "42"]> {["jobTitle" := JStr "Barista"]}) in
  ∃ s' e1 e2,
    notifyNewApplication Demo.toISOString Demo.dateToString
      applicationData "u2" 3 4 s = Returned s' ∧
    received "cB" (emitted s s') = [e1; e2] ∧
    pkt_event e1 = "new_application" ∧
    pkt_event e2 = "new_application" ∧
    fieldsOf (pkt_data e1) !! "application" = Some applicationData ∧
    fieldsOf (pkt_data e2) !! "application" = Some applicationData ∧
    fieldsOf (pkt_data e1) !! "timestamp" = Some (JStr (Demo.toISOString 3)) ∧
    fieldsOf (pkt_data e2) !! "timestamp" = Some (JStr (Demo.toISOString 4)).
Proof.
  intros s applicationData.
  apply (new_application_received_twice Demo.toISOString Demo.dateToString
           "cB" "u2" applicationData (JStr "42") (JStr "Barista")
           "42" "Barista" 3 4 s).
  - by vm_compute; eexists.
  - apply (bool_decide_unpack _). by vm_compute.
  - reflexivity.
  - reflexivity.
  - reflexivity.
  - reflexivity.
  - apply (bool_decide_unpack _). by vm_compute.
Defined.

(** ** C7: joining and leaving a job room *)

Lemma socket_join_idem (sid room : string) (s : SocketManager) :
  socket_join sid room (socket_join sid room s) = socket_join sid room s.
Proof.
  unfold socket_join; simpl. f_equal.
  rewrite alter_alter_eq. apply alter_ext. intros c _.
  unfold add_room; simpl. f_equal. set_solver.
Qed.

Lemma socket_leave_absent (sid room : string) (s : SocketManager) :
  room ∉ roomsOf sid s → socket_leave sid room s = s.
Proof.
  unfold roomsOf, socket_leave. intros Hr. destruct s as [cu m out]; simpl in *.
  f_equal. apply alter_id. intros c Hc. rewrite Hc in Hr.
  destruct c as [k rs]. unfold drop_room; simpl in *. f_equal. set_solver.
Qed.

Lemma isOpen_socket_join (sid sid' room : string) (s : SocketManager) :
  isOpen sid (socket_join sid' room s) ↔ isOpen sid s.
Proof.
  unfold isOpen, socket_join; simpl. rewrite lookup_alter.
  case_decide; [subst; by rewrite fmap_is_Some | done].
Qed.

(** What the join and the leave listener do to the manager. *)
Lemma onMessage_join iso dts (sid : string) (jobId : JsVal) (now : Z)
  (s : SocketManager) :
  onMessage iso dts sid (JoinJobRoom jobId) now s =
  match io s !! sid, toString dts jobId with
  | Some _, Some room => socket_join sid ("job:" +:+ room) s
  | _, _ => s
  end.
Proof.
  unfold onMessage, listener. destruct (io s !! sid); [| done].
  by destruct (toString dts jobId).
Qed.

Lemma onMessage_leave iso dts (sid : string) (jobId : JsVal) (now : Z)
  (s : SocketManager) :
  onMessage iso dts sid (LeaveJobRoom jobId) now s =
  match io s !! sid, toString dts jobId with
  | Some _, Some room => socket_leave sid ("job:" +:+ room) s
  | _, _ => s
  end.
Proof.
  unfold onMessage, listener. destruct (io s !! sid); [| done].
  by destruct (toString dts jobId).
Qed.

(** The things an inbound message can do to the manager: nothing, a join
    or a leave of a job room by the sender, or an emit to the sender. *)
Lemma onMessage_cases iso dts (sid : string) (m : ClientMsg) (now : Z)
  (s : SocketManager) :
  onMessage iso dts sid m now s = s ∨
  (isOpen sid s ∧
   ((∃ room, onMessage iso dts sid m now s = socket_join sid ("job:" +:+ room) s) ∨
    (∃ room, onMessage iso dts sid m now s = socket_leave sid ("job:" +:+ room) s) ∨
    (∃ event data, onMessage iso dts sid m now s = socket_emit sid event data s))).
Proof.
  unfold onMessage, listener, isOpen.
  destruct (io s !! sid) as [c|]; [| by left].
  destruct m as [j | j | |].
  - destruct (toString dts j) as [room|]; [| by left].
    right. split; [by eexists |]. left. by exists room.
  - destruct (toString dts j) as [room|]; [| by left].
    right. split; [by eexists |]. right; left. by exists room.
  - destruct (userId (conn_socket c)) as [u|]; [| by left].
    destruct (truthy (Some u)); [| by left].
    right. split; [by eexists |]. right; right. by eexists _, _.
  - right. split; [by eexists |]. right; right. by eexists _, _.
Qed.

(** C7: handling [join_job_room] a second time with the same job id leaves
    the manager exactly as the first join left it, and handling
    [leave_job_room] for a job room the socket is not in leaves the manager
    exactly as it was; for a job id that names a room, that is one a
    template literal can render, neither listener throws. *)
Theorem join_and_leave_are_idempotent iso dts (sid : string) (jobId : JsVal)
  (now1 now2 : Z) (s : SocketManager) :
  onMessage iso dts sid (JoinJobRoom jobId) now2
    (onMessage iso dts sid (JoinJobRoom jobId) now1 s) =
  onMessage iso dts sid (JoinJobRoom jobId) now1 s ∧
  ((∀ room, toString dts jobId = Some room →
      "job:" +:+ room ∉ roomsOf sid s) →
   onMessage iso dts sid (LeaveJobRoom jobId) now1 s = s) ∧
  (is_Some (toString dts jobId) →
   listener iso dts sid (JoinJobRoom jobId) now1 s =
     Returned (onMessage iso dts sid (JoinJobRoom jobId) now1 s) ∧
   listener iso dts sid (LeaveJobRoom jobId) now1 s =
     Returned (onMessage iso dts sid (LeaveJobRoom jobId) now1 s)).
Proof.
  split; [| split].
  - rewrite !onMessage_join.
    destruct (io s !! sid) as [c|] eqn:E; [| by rewrite E].
    destruct (toString dts jobId) as [room|]; [| by rewrite E].
    destruct (io (socket_join _ _ s) !! sid); [apply socket_join_idem | done].
  - intros Hr. rewrite onMessage_leave.
    destruct (io s !! sid); [| done].
    destruct (toString dts jobId) as [room|]; [| done].
    apply socket_leave_absent. by apply Hr.
  - intros [room Hroom]. unfold onMessage, listener.
    destruct (io s !! sid); [| done]. by rewrite Hroom.
Qed.

Lemma join_and_leave_are_idempotent_witness :
  let s := Demo.connect "c1" (Demo.bearer "tok-u1") 1 initial in
  Demo.onMessage "c1" (JoinJobRoom (JStr "42")) 3
    (Demo.onMessage "c1" (JoinJobRoom (JStr "42")) 2 s) =
  Demo.onMessage "c1" (JoinJobRoom (JStr "42")) 2 s ∧
  ("job:42" ∉ roomsOf "c1" s) ∧
  Demo.onMessage "c1" (LeaveJobRoom (JStr "42")) 2 s = s.
Proof.
  intros s.
  destruct (join_and_leave_are_idempotent Demo.toISOString Demo.dateToString
              "c1" (JStr "42") 2 3 s) as (Hjoin & Hleave & _).
  assert (Hout : "job:42" ∉ roomsOf "c1" s)
    by (apply (bool_decide_unpack _); by vm_compute).
  split; [exact Hjoin | split; [exact Hout |]].
  apply Hleave. intros room [= <-]. exact Hout.
Defined.

(** ** C8: rooms derived from the identity *)

Lemma roomsOf_onMessage iso dts (sid sid' room : string) (m : ClientMsg)
  (now : Z) (s : SocketManager) :
  is_job_room room = false →
  room ∈ roomsOf sid (onMessage iso dts sid' m now s) ↔ room ∈ roomsOf sid s.
Proof.
  intros Hroom.
  assert (Hne : ∀ x, room ≠ "job:" +:+ x).
  { intros x ->. by rewrite job_room_is_job_room in Hroom. }
  destruct (onMessage_cases iso dts sid' m now s)
    as [-> | [Ho [[x ->] | [[x ->] | (ev & data & ->)]]]]; [done | | | done].
  - rewrite roomsOf_socket_join. case_decide as Hs; [| done]. subst sid'.
    rewrite decide_True by done. specialize (Hne x). set_solver.
  - rewrite roomsOf_socket_leave. case_decide as Hs; [| done].
    specialize (Hne x). set_solver.
Qed.

Lemma isOpen_onMessage iso dts (sid sid' : string) (m : ClientMsg) (now : Z)
  (s : SocketManager) :
  isOpen sid (onMessage iso dts sid' m now s) ↔ isOpen sid s.
Proof.
  destruct (onMessage_cases iso dts sid' m now s)
    as [-> | [Ho [[x ->] | [[x ->] | (ev & data & ->)]]]]; [done | | | done].
  - apply isOpen_socket_join.
  - unfold isOpen, socket_leave; simpl. rewrite lookup_alter.
    case_decide; [subst; by rewrite fmap_is_Some | done].
Qed.

Lemma roomsOf_onMessages iso dts (sid room : string)
  (ms : list (string * ClientMsg * Z)) (s : SocketManager) :
  is_job_room room = false →
  room ∈ roomsOf sid (onMessages iso dts ms s) ↔ room ∈ roomsOf sid s.
Proof.
  intros Hroom. revert s.
  induction ms as [| [[sid' m] now] ms IH]; intros s; simpl; [done |].
  rewrite IH. by apply roomsOf_onMessage.
Qed.

Lemma isOpen_onMessages iso dts (sid : string)
  (ms : list (string * ClientMsg * Z)) (s : SocketManager) :
  isOpen sid (onMessages iso dts ms s) ↔ isOpen sid s.
Proof.
  revert s. induction ms as [| [[sid' m] now] ms IH]; intros s; simpl; [done |].
  rewrite IH. apply isOpen_onMessage.
Qed.

Lemma registered_role_truthy (r : string) :
  r ∈ registered_roles → truthy (Some r) = true.
Proof.
  unfold registered_roles. intros H.
  repeat (apply elem_of_cons in H as [-> | H]; [reflexivity |]).
  by apply elem_of_nil in H.
Qed.

(** C8: a socket authenticated as user [u] with role [r] is put in its
    personal room, its role room and, for an admin, the admin room; after
    any run of inbound control messages, with any client-supplied job ids
    and from any sockets, it is still open, still in those rooms, and in no
    other room except job rooms. *)
Theorem identity_rooms_are_not_client_mutable iso dts
  (k : AuthenticatedSocket) (u r : string) (now : Z)
  (ms : list (string * ClientMsg * Z)) (s : SocketManager) :
  userId k = Some u → u ≠ "" →
  userType k = Some r → r ∈ registered_roles →
  let s' := onMessages iso dts ms (onConnection iso k now s) in
  isOpen (socket_id k) s' ∧
  "user:" +:+ u ∈ roomsOf (socket_id k) s' ∧
  r ∈ roomsOf (socket_id k) s' ∧
  (r = "admin" → "admin" ∈ roomsOf (socket_id k) s') ∧
  ∀ room, is_job_room room = false →
    (room ∈ roomsOf (socket_id k) s' ↔
     room = "user:" +:+ u ∨ room = r ∨ (r = "admin" ∧ room = "admin")).
Proof.
  intros Hu Hne Hr Hreg s'. apply truthy_Some in Hne.
  pose proof (registered_role_truthy _ Hreg) as Hrt.
  pose proof (registered_role_not_job_room _ Hreg) as Hrj.
  assert (Hrooms : ∀ room, is_job_room room = false →
            (room ∈ roomsOf (socket_id k) s' ↔
             room = "user:" +:+ u ∨ room = r ∨ (r = "admin" ∧ room = "admin"))).
  { intros room Hroom. unfold s'.
    rewrite roomsOf_onMessages by done. rewrite roomsOf_onConnection.
    unfold default_rooms. rewrite Hu, Hr, Hne, Hrt.
    case_decide as Ha; [injection Ha as -> |]; set_solver. }
  split; [| repeat split].
  - unfold s'. apply isOpen_onMessages. unfold isOpen.
    rewrite io_onConnection, lookup_insert_eq. by eexists.
  - apply Hrooms; [apply user_room_not_job_room | by left].
  - apply Hrooms; [done | by right; left].
  - intros ->. apply Hrooms; [done | by right; left].
  - by apply Hrooms.
  - by apply Hrooms.
Qed.

Lemma identity_rooms_are_not_client_mutable_witness :
  let k := Demo.socket "c3" "u3" "admin" in
  let ms := [("c3", LeaveJobRoom (JStr "x"), 2%Z);
             ("c3", JoinJobRoom JUndefined, 3%Z);
             ("c3", LeaveJobRoom (JStr "admin"), 4%Z)] in
  let s' := onMessages Demo.toISOString Demo.dateToString ms
              (onConnection Demo.toISOString k 1 initial) in
  isOpen "c3" s' ∧
  "user:u3" ∈ roomsOf "c3" s' ∧
  "admin" ∈ roomsOf "c3" s' ∧
  ("admin" = "admin" → "admin" ∈ roomsOf "c3" s') ∧
  ∀ room, is_job_room room = false →
    (room ∈ roomsOf "c3" s' ↔
     room = "user:u3" ∨ room = "admin" ∨ ("admin" = "admin" ∧ room = "admin")).
Proof.
  intros k ms.
  apply (identity_rooms_are_not_client_mutable Demo.toISOString
           Demo.dateToString k "u3" "admin" 1 ms initial).
  - reflexivity.
  - discriminate.
  - reflexivity.
  - unfold registered_roles. do 2 apply list_elem_of_further. apply list_elem_of_here.
Defined.

(** ** C9: a join or leave message without a job id *)

(** C9, as stated, fails: socket [c1] sends [join_job_room] with no
    argument; the message is handled, and the socket is afterwards in the
    room ["job:undefined"], in which it was not before. *)
Lemma join_without_job_id_counterexample :
  let s := Demo.connect "c1" (Demo.bearer "tok-u1") 1 initial in
  let s' := Demo.onMessage "c1" (JoinJobRoom JUndefined) 2 s in
  membersOf "job:undefined" s = [] ∧
  membersOf "job:undefined" s' = ["c1"] ∧
  roomsOf "c1" s' ≠ roomsOf "c1" s.
Proof.
  intros s s'. split; [reflexivity | split; [reflexivity |]].
  intros H. assert (Hin : "job:undefined" ∈ roomsOf "c1" s').
  { apply (bool_decide_unpack _). by vm_compute. }
  rewrite H in Hin. revert Hin. apply (bool_decide_unpack _). by vm_compute.
Qed.

(** C9, amended: a [join_job_room] or [leave_job_room] message that carries
    no job id is not discarded.  The missing id is rendered as the text
    [undefined]: the socket joins, respectively leaves, the room
    ["job:undefined"].  No other room membership changes, for this socket
    or any other, the registry is unchanged, nothing is emitted, and the
    socket stays open. *)
Theorem missing_job_id_names_room_undefined iso dts (sid : string) (now : Z)
  (s : SocketManager) :
  isOpen sid s →
  let sj := onMessage iso dts sid (JoinJobRoom JUndefined) now s in
  let sl := onMessage iso dts sid (LeaveJobRoom JUndefined) now s in
  roomsOf sid sj = {["job:undefined"]} ∪ roomsOf sid s ∧
  roomsOf sid sl = roomsOf sid s ∖ {["job:undefined"]} ∧
  (∀ other, other ≠ sid →
     roomsOf other sj = roomsOf other s ∧ roomsOf other sl = roomsOf other s) ∧
  isOpen sid sj ∧ isOpen sid sl ∧
  connectedUsers sj = connectedUsers s ∧ connectedUsers sl = connectedUsers s ∧
  sent sj = sent s ∧ sent sl = sent s.
Proof.
  intros Ho sj sl. pose proof Ho as [c Hc].
  assert (Ej : sj = socket_join sid "job:undefined" s)
    by (unfold sj; by rewrite onMessage_join, Hc).
  assert (El : sl = socket_leave sid "job:undefined" s)
    by (unfold sl; by rewrite onMessage_leave, Hc).
  split; [| split; [| split; [| split; [| split]]]].
  - rewrite Ej, roomsOf_socket_join. by rewrite !decide_True.
  - rewrite El, roomsOf_socket_leave. by rewrite decide_True.
  - intros other Hne. rewrite Ej, El, roomsOf_socket_join, roomsOf_socket_leave.
    by rewrite !decide_False.
  - unfold sj. by apply isOpen_onMessage.
  - unfold sl. by apply isOpen_onMessage.
  - by rewrite Ej, El.
Qed.

Lemma missing_job_id_names_room_undefined_witness :
  let s := Demo.connect "c1" (Demo.bearer "tok-u1") 1 initial in
  let sj := Demo.onMessage "c1" (JoinJobRoom JUndefined) 2 s in
  let sl := Demo.onMessage "c1" (LeaveJobRoom JUndefined) 2 s in
  roomsOf "c1" sj = {["job:undefined"]} ∪ roomsOf "c1" s ∧
  roomsOf "c1" sl = roomsOf "c1" s ∖ {["job:undefined"]} ∧
  (∀ other, other ≠ "c1" →
     roomsOf other sj = roomsOf other s ∧ roomsOf other sl = roomsOf other s) ∧
  isOpen "c1" sj ∧ isOpen "c1" sl ∧
  connectedUsers sj = connectedUsers s ∧ connectedUsers sl = connectedUsers s ∧
  sent sj = sent s ∧ sent sl = sent s.
Proof.
  intros s.
  apply (missing_job_id_names_room_undefined Demo.toISOString
           Demo.dateToString "c1" 2 s).
  by vm_compute; eexists.
Defined.

(** ** C10: the KYC status request *)

(** C10: on ['kyc:status:request'] from a live socket, a socket with a
    userId attached is sent exactly one ['kyc:status:response'] event
    carrying that userId and a timestamp; a socket with no userId attached
    is sent nothing.  In both cases rooms and registry are untouched. *)
Theorem kyc_status_request_reply iso dts (sid : string) (c : Conn) (now : Z)
  (s : SocketManager) :
  io s !! sid = Some c →
  let s' := onMessage iso dts sid KycStatusRequest now s in
  io s' = io s ∧
  connectedUsers s' = connectedUsers s ∧
  (∀ u, userId (conn_socket c) = Some u → u ≠ "" →
     emitted s s' =
     [ {| pkt_to := sid; pkt_event := "kyc:status:response";
          pkt_data := JObj (<["userId" := JStr u]>
                           (<["timestamp" := JDate now]> ∅)) |} ]) ∧
  (userId (conn_socket c) = None → s' = s ∧ emitted s s' = []).
Proof.
  intros Hc s'. unfold s', onMessage, listener. rewrite Hc.
  destruct (userId (conn_socket c)) as [u|] eqn:Eu.
  - destruct (truthy (Some u)) eqn:Et; (split; [done | split; [done |]]); split.
    + intros u' [= <-] _. unfold emitted, socket_emit; simpl.
      by rewrite drop_app_length.
    + discriminate.
    + intros u' [= <-] Hne%truthy_Some. congruence.
    + discriminate.
  - split; [done | split; [done |]]. split; [discriminate |].
    intros _. split; [done |]. unfold emitted. apply drop_all.
Qed.

Lemma kyc_status_request_reply_witness :
  let s := Demo.connect "c1" (Demo.bearer "tok-u1") 1 initial in
  let k := Demo.socket "c1" "u1" "student" in
  let s' := Demo.onMessage "c1" KycStatusRequest 9 s in
  io s' = io s ∧
  connectedUsers s' = connectedUsers s ∧
  emitted s s' =
    [ {| pkt_to := "c1"; pkt_event := "kyc:status:response";
         pkt_data := JObj (<["userId" := JStr "u1"]>
                          (<["timestamp" := JDate 9]> ∅)) |} ] ∧
  (userId k = None → s' = s ∧ emitted s s' = []).
Proof.
  intros s k.
  destruct (kyc_status_request_reply Demo.toISOString Demo.dateToString "c1"
              {| conn_socket := k; conn_rooms := default_rooms k |} 9 s eq_refl)
    as (Hio & Hreg & Hreply & Hnone).
  split; [exact Hio | split; [exact Hreg | split; [| exact Hnone]]].
  apply (Hreply "u1"); [reflexivity | discriminate].
Defined.

(** * Further properties of the manager *)

(** ** Where the token comes from *)

Lemma substring_whole (t : string) : String.substring 0 (String.length t) t = t.
Proof. induction t as [| c t IH]; simpl; [done | by rewrite IH]. Qed.

Lemma remove_first_at_prefix (pat s : string) :
  String.prefix pat s = true →
  remove_first pat s =
  String.substring (String.length pat) (String.length s - String.length pat) s.
Proof.
  intros H. destruct s as [| c s].
  - destruct pat; [reflexivity | discriminate].
  - change (remove_first pat (String c s)) with
      (if String.prefix pat (String c s)
       then String.substring (String.length pat)
              (String.length (String c s) - String.length pat) (String c s)
       else String c (remove_first pat s)).
    by rewrite H.
Qed.

Lemma prefix_append (pat t : string) : String.prefix pat (pat +:+ t) = true.
Proof.
  induction pat as [| c pat IH]; simpl; [by destruct t |].
  by destruct (Ascii.ascii_dec c c).
Qed.

Lemma remove_first_prefix (pat t : string) : remove_first pat (pat +:+ t) = t.
Proof.
  rewrite remove_first_at_prefix by apply prefix_append.
  induction pat as [| c pat IH]; simpl.
  - rewrite Nat.sub_0_r. apply substring_whole.
  - exact IH.
Qed.

(** X1: the token of a handshake.  A non-empty [auth.token] is used whatever
    the header says; when [auth.token] is missing or empty, a header
    [Bearer <t>] yields [<t>]; with neither there is no token. *)
Theorem handshake_token_source (a : option string) (h : option string) :
  (∀ tok, a = Some tok → tok ≠ "" →
     handshake_token {| auth_token := a; authorization := h |} = Some tok) ∧
  (truthy a = false → ∀ t, h = Some ("Bearer " +:+ t) →
     handshake_token {| auth_token := a; authorization := h |} = Some t) ∧
  (truthy a = false → h = None →
     handshake_token {| auth_token := a; authorization := h |} = None).
Proof.
  unfold handshake_token, js_or; simpl. repeat split.
  - intros tok -> Hne%truthy_Some. by rewrite Hne.
  - intros Ha t ->. rewrite Ha. simpl. f_equal.
    apply (remove_first_prefix "Bearer " t).
  - intros Ha ->. by rewrite Ha.
Qed.

Lemma handshake_token_source_witness :
  handshake_token {| auth_token := Some "abc"; authorization := Some "Bearer xyz" |}
    = Some "abc" ∧
  handshake_token {| auth_token := Some ""; authorization := Some "Bearer xyz" |}
    = Some "xyz" ∧
  handshake_token {| auth_token := None; authorization := None |} = None.
Proof.
  split; [| split].
  - destruct (handshake_token_source (Some "abc") (Some "Bearer xyz"))
      as (Hauth & _ & _).
    apply Hauth; [reflexivity | discriminate].
  - destruct (handshake_token_source (Some "") (Some "Bearer xyz"))
      as (_ & Hheader & _).
    apply Hheader; reflexivity.
  - destruct (handshake_token_source None None) as (_ & _ & Hnone).
    apply Hnone; reflexivity.
Defined.

(** ** What the middleware accepts and how it refuses *)

Lemma middleware_inr_inv jwt db (sid : string)
  (hs : Handshake) (sock : AuthenticatedSocket) :
  middleware jwt db sid hs = inr sock →
  ∃ token decoded uid doc,
    handshake_token hs = Some token ∧ token ≠ "" ∧
    jwt token = Some decoded ∧
    getProp decoded "userId" = Some uid ∧
    db uid = Some (Some doc) ∧
    sock = {| socket_id := sid; userId := Some (_id doc);
              userType := Some (doc_userType doc);
              userEmail := Some (email doc) |}.
Proof.
  unfold middleware, authenticate.
  destruct (handshake_token hs) as [token|] eqn:Eh; [| discriminate].
  destruct (truthy (Some token)) eqn:Et; [| discriminate].
  apply truthy_Some in Et.
  destruct (jwt token) as [decoded|] eqn:Ej; [| discriminate]. simpl.
  destruct (getProp decoded "userId") as [uid|] eqn:Ep; [| discriminate].
  simpl.
  destruct (db uid) as [[doc|]|] eqn:Ed; simpl; try discriminate.
  intros [= <-]. by exists token, decoded, uid, doc.
Qed.


(** X2: the middleware lets a connection through only when the handshake
    carries a non-empty token that verifies and whose [userId] names a
    stored account; the identity attached to the socket is that account's
    id, role and email. *)
Theorem accepted_connection_has_verified_account jwt db (sid : string)
  (hs : Handshake) (sock : AuthenticatedSocket) :
  middleware jwt db sid hs = inr sock →
  ∃ token decoded uid doc,
    handshake_token hs = Some token ∧ token ≠ "" ∧
    jwt token = Some decoded ∧
    getProp decoded "userId" = Some uid ∧
    db uid = Some (Some doc) ∧
    sock = {| socket_id := sid; userId := Some (_id doc);
              userType := Some (doc_userType doc);
              userEmail := Some (email doc) |}.
Proof. apply middleware_inr_inv. Qed.

Lemma accepted_connection_has_verified_account_witness :
  ∃ token decoded uid doc,
    handshake_token (Demo.bearer "tok-u2") = Some token ∧ token ≠ "" ∧
    Demo.jwt_verify token = Some decoded ∧
    getProp decoded "userId" = Some uid ∧
    Demo.findById uid = Some (Some doc) ∧
    Demo.socket "c1" "u2" "employer" =
      {| socket_id := "c1"; userId := Some (_id doc);
         userType := Some (doc_userType doc);
         userEmail := Some (email doc) |}.
Proof.
  apply (accepted_connection_has_verified_account Demo.jwt_verify
           Demo.findById "c1" (Demo.bearer "tok-u2")).
  reflexivity.
Defined.

(** X3: the three refusals and their causes.  "No token provided" is
    reported exactly when the handshake has no non-empty token; "User not
    found" exactly when the token verifies and the lookup finds no
    document; "Invalid token" exactly when verification throws, or the
    decoded payload has no readable [userId], or the lookup itself fails.
    No other refusal exists. *)
Theorem middleware_refusal_causes jwt db (sid : string) (hs : Handshake) :
  (middleware jwt db sid hs = inl "Authentication error: No token provided" ↔
   truthy (handshake_token hs) = false) ∧
  (middleware jwt db sid hs = inl "Authentication error: User not found" ↔
   ∃ token decoded uid,
     handshake_token hs = Some token ∧ token ≠ "" ∧
     jwt token = Some decoded ∧ getProp decoded "userId" = Some uid ∧
     db uid = Some None) ∧
  (middleware jwt db sid hs = inl "Authentication error: Invalid token" ↔
   ∃ token,
     handshake_token hs = Some token ∧ token ≠ "" ∧
     (jwt token = None ∨
      ∃ decoded, jwt token = Some decoded ∧
        (getProp decoded "userId" = None ∨
         ∃ uid, getProp decoded "userId" = Some uid ∧ db uid = None))) ∧
  (∀ e, middleware jwt db sid hs = inl e →
     e ∈ [ "Authentication error: No token provided";
           "Authentication error: User not found";
           "Authentication error: Invalid token" ]).
Proof.
  unfold middleware, authenticate.
  destruct (handshake_token hs) as [token|] eqn:Eh;
    [destruct (truthy (Some token)) eqn:Et;
      [pose proof Et as Hne%truthy_Some;
       destruct (jwt token) as [decoded|] eqn:Ej; simpl;
        [destruct (getProp decoded "userId") as [uid|] eqn:Ep; simpl;
          [destruct (db uid) as [[doc|]|] eqn:Ed; simpl |] |]
      | assert (token = "") as -> by
          (destruct (decide (token = "")) as [|Hn]; [done |];
           apply truthy_Some in Hn; congruence) ] |].
  all: repeat split; try done; try (intros; set_solver); try naive_solver.
  all: try (intros _; eexists; repeat split; eauto 10).
Qed.

(** ** A successful connection *)

Lemma roomsOf_onConnection_other iso (k : AuthenticatedSocket) (now : Z)
  (other : string) (s : SocketManager) :
  other ≠ socket_id k → roomsOf other (onConnection iso k now s) = roomsOf other s.
Proof.
  intros Hne. unfold roomsOf. by rewrite io_onConnection, lookup_insert_ne.
Qed.

Lemma emitted_onConnection iso (k : AuthenticatedSocket) (now : Z)
  (s : SocketManager) :
  emitted s (onConnection iso k now s) =
  [ {| pkt_to := socket_id k; pkt_event := "connected";
       pkt_data := connectedEvent iso k now |} ].
Proof. apply emitted_app, sent_onConnection. Qed.

(** X4: when the middleware accepts a connection for user [u], the
    connection is at once registered and set up: [isUserConnected u] is
    true, the registry entry of [u] is the new socket id, the socket is
    live with the accepted identity and in exactly the rooms that identity
    names, among them [user:u]; the only packet sent is one ['connected']
    acknowledgment to the new socket carrying its userId, role, socket id
    and the connection time; other sockets' rooms and other users' registry
    entries are untouched. *)
Theorem accepted_connection_is_set_up jwt db iso (sid : string)
  (hs : Handshake) (now : Z) (s : SocketManager) (sock : AuthenticatedSocket)
  (u : string) :
  middleware jwt db sid hs = inr sock → userId sock = Some u → u ≠ "" →
  let s' := connect jwt db iso sid hs now s in
  isUserConnected u s' = true ∧
  registry_holds s' u sid ∧
  identityOf sid s' = Some sock ∧
  roomsOf sid s' = default_rooms sock ∧
  "user:" +:+ u ∈ roomsOf sid s' ∧
  (∃ ack,
     emitted s s' =
       [ {| pkt_to := sid; pkt_event := "connected"; pkt_data := JObj ack |} ] ∧
     ack !! "userId" = Some (JStr u) ∧
     ack !! "userType" = Some (opt_str (userType sock)) ∧
     ack !! "socketId" = Some (JStr sid) ∧
     ack !! "timestamp" = Some (JStr (iso now))) ∧
  (∀ other, other ≠ sid → roomsOf other s' = roomsOf other s) ∧
  (∀ u', u' ≠ u → connectedUsers s' !! u' = connectedUsers s !! u').
Proof.
  intros Hm Hu Hne s'.
  assert (Hsid : socket_id sock = sid).
  { apply middleware_inr_inv in Hm as (? & ? & ? & ? & _ & _ & _ & _ & _ & ->).
    done. }
  assert (Es : s' = onConnection iso sock now s)
    by (unfold s', connect; by rewrite Hm).
  pose proof Hne as Ht%truthy_Some.
  assert (Ereg : connectedUsers s' = <[u := sid]> (connectedUsers s)).
  { rewrite Es, connectedUsers_onConnection, Hu, Ht. by rewrite Hsid. }
  assert (Erooms : roomsOf sid s' = default_rooms sock).
  { rewrite Es, <- Hsid. apply roomsOf_onConnection. }
  split; [| split; [| split; [| split; [| split; [| split; [| split]]]]]].
  - unfold isUserConnected. apply bool_decide_eq_true.
    rewrite Ereg, lookup_insert_eq. by eexists.
  - unfold registry_holds. by rewrite Ereg, lookup_insert_eq.
  - unfold identityOf. rewrite Es, io_onConnection, Hsid, lookup_insert_eq.
    done.
  - done.
  - rewrite Erooms. unfold default_rooms. rewrite Hu, Ht. set_solver.
  - rewrite Es, emitted_onConnection. unfold connectedEvent.
    rewrite Hu, Hsid. simpl. eexists. split; [reflexivity |].
    repeat split; by simplify_map_eq.
  - intros other Hother. rewrite Es. apply roomsOf_onConnection_other.
    by rewrite Hsid.
  - intros u' Hu'. rewrite Ereg. by apply lookup_insert_ne.
Qed.

Lemma accepted_connection_is_set_up_witness :
  let sock := Demo.socket "c5" "u2" "employer" in
  let s := Demo.connect "c1" (Demo.bearer "tok-u1") 1 initial in
  let s' := Demo.connect "c5" (Demo.bearer "tok-u2") 2 s in
  isUserConnected "u2" s' = true ∧
  registry_holds s' "u2" "c5" ∧
  identityOf "c5" s' = Some sock ∧
  roomsOf "c5" s' = default_rooms sock ∧
  "user:u2" ∈ roomsOf "c5" s' ∧
  (∃ ack,
     emitted s s' =
       [ {| pkt_to := "c5"; pkt_event := "connected"; pkt_data := JObj ack |} ] ∧
     ack !! "userId" = Some (JStr "u2") ∧
     ack !! "userType" = Some (opt_str (userType sock)) ∧
     ack !! "socketId" = Some (JStr "c5") ∧
     ack !! "timestamp" = Some (JStr (Demo.toISOString 2))) ∧
  (∀ other, other ≠ "c5" → roomsOf other s' = roomsOf other s) ∧
  (∀ u', u' ≠ "u2" → connectedUsers s' !! u' = connectedUsers s !! u').
Proof.
  intros sock s.
  apply (accepted_connection_is_set_up Demo.jwt_verify Demo.findById
           Demo.toISOString "c5" (Demo.bearer "tok-u2") 2 s sock "u2");
    [reflexivity | reflexivity | discriminate].
Defined.

(** ** The accounts of the example deployment *)

Lemma demo_accounts (v : JsVal) (doc : UserDoc) :
  Demo.findById v = Some (Some doc) →
  doc ∈ [Demo.account "u1" "student" true; Demo.account "u2" "employer" true;
         Demo.account "u3" "admin" true; Demo.account "u4" "student" false].
Proof.
  unfold Demo.findById. intros H.
  repeat match type of H with
         | context [match ?x with _ => _ end] => destruct x; try discriminate H
         end.
  all: injection H as <-; set_solver.
Qed.

Lemma demo_roles_registered : db_roles_registered Demo.findById.
Proof.
  intros v doc Hd. apply demo_accounts in Hd. unfold registered_roles.
  repeat (apply elem_of_cons in Hd as [-> | Hd]; [simpl; set_solver |]).
  by apply elem_of_nil in Hd.
Qed.

(** ** Inbound messages *)

Lemma identityOf_alter (f : Conn → Conn) (sid other : string)
  (m : gmap string Conn) :
  (∀ c, conn_socket (f c) = conn_socket c) →
  conn_socket <$> alter f sid m !! other = conn_socket <$> m !! other.
Proof.
  intros Hf. rewrite lookup_alter. case_decide; [subst |]; [| done].
  destruct (m !! other); simpl; [by rewrite Hf | done].
Qed.

(** X5: handling an inbound message never touches the registry, never
    opens or closes a socket or changes an identity, never changes the
    rooms of any socket other than the sender, and whatever it emits is
    addressed to the sender. *)
Theorem inbound_message_is_confined_to_sender iso dts (sid : string)
  (m : ClientMsg) (now : Z) (s : SocketManager) :
  let s' := onMessage iso dts sid m now s in
  connectedUsers s' = connectedUsers s ∧
  (∀ other, identityOf other s' = identityOf other s) ∧
  (∀ other, other ≠ sid → roomsOf other s' = roomsOf other s) ∧
  ∃ l, sent s' = (sent s ++ l)%list ∧ ∀ p, p ∈ l → pkt_to p = sid.
Proof.
  intros s'. unfold s', identityOf.
  assert (Hnil : ∃ l, sent s = (sent s ++ l)%list ∧
                      ∀ p : Packet, p ∈ l → pkt_to p = sid).
  { exists []. split; [by rewrite app_nil_r |].
    intros p Hp. by apply elem_of_nil in Hp. }
  destruct (onMessage_cases iso dts sid m now s)
    as [-> | [Ho [[x ->] | [[x ->] | (ev & data & ->)]]]].
  - done.
  - repeat split; try done.
    + intros other. by apply identityOf_alter.
    + intros other Hne. rewrite roomsOf_socket_join. by rewrite decide_False.
  - repeat split; try done.
    + intros other. by apply identityOf_alter.
    + intros other Hne. rewrite roomsOf_socket_leave. by rewrite decide_False.
  - repeat split; try done. eexists. split; [reflexivity |].
    by intros p ->%list_elem_of_singleton.
Qed.

Lemma socket_leave_join (sid room : string) (s : SocketManager) :
  socket_leave sid room (socket_join sid room s) = socket_leave sid room s.
Proof.
  unfold socket_join, socket_leave; simpl. f_equal.
  rewrite alter_alter_eq. apply alter_ext. intros c _.
  unfold add_room, drop_room; simpl. f_equal. set_solver.
Qed.

Lemma socket_join_leave (sid room : string) (s : SocketManager) :
  socket_join sid room (socket_leave sid room s) = socket_join sid room s.
Proof.
  unfold socket_join, socket_leave; simpl. f_equal.
  rewrite alter_alter_eq. apply alter_ext. intros c _.
  unfold add_room, drop_room; simpl. f_equal.
  apply set_eq. intros x. destruct (decide (x = room)); set_solver.
Qed.

Lemma io_socket_join_live (sid room : string) (c : Conn) (s : SocketManager) :
  io s !! sid = Some c →
  io (socket_join sid room s) !! sid = Some (add_room room c).
Proof.
  intros Hc. unfold socket_join; simpl.
  by rewrite lookup_alter, decide_True, Hc.
Qed.

Lemma io_socket_leave_live (sid room : string) (c : Conn) (s : SocketManager) :
  io s !! sid = Some c →
  io (socket_leave sid room s) !! sid = Some (drop_room room c).
Proof.
  intros Hc. unfold socket_leave; simpl.
  by rewrite lookup_alter, decide_True, Hc.
Qed.

(** X6: leaving a job room undoes joining it.  A [leave_job_room] right
    after a [join_job_room] with the same job id has the effect of the
    leave alone, so a socket that was not in the room is back in the state
    it started from; and a join after a leave has the effect of the join
    alone. *)
Theorem leave_undoes_join iso dts (sid : string) (jobId : JsVal)
  (now1 now2 : Z) (s : SocketManager) :
  onMessage iso dts sid (LeaveJobRoom jobId) now2
    (onMessage iso dts sid (JoinJobRoom jobId) now1 s) =
  onMessage iso dts sid (LeaveJobRoom jobId) now2 s ∧
  onMessage iso dts sid (JoinJobRoom jobId) now2
    (onMessage iso dts sid (LeaveJobRoom jobId) now1 s) =
  onMessage iso dts sid (JoinJobRoom jobId) now2 s ∧
  ((∀ room, toString dts jobId = Some room →
      "job:" +:+ room ∉ roomsOf sid s) →
   onMessage iso dts sid (LeaveJobRoom jobId) now2
     (onMessage iso dts sid (JoinJobRoom jobId) now1 s) = s).
Proof.
  assert (Hlj : onMessage iso dts sid (LeaveJobRoom jobId) now2
                  (onMessage iso dts sid (JoinJobRoom jobId) now1 s) =
                onMessage iso dts sid (LeaveJobRoom jobId) now2 s).
  { rewrite onMessage_join, (onMessage_leave iso dts sid jobId now2 s).
    destruct (io s !! sid) as [c|] eqn:E;
      [| by rewrite onMessage_leave, E].
    destruct (toString dts jobId) as [room|] eqn:Er;
      [| by rewrite onMessage_leave, E, Er].
    rewrite onMessage_leave, Er, (io_socket_join_live _ _ c) by done.
    apply socket_leave_join. }
  split; [exact Hlj | split].
  - rewrite onMessage_leave, (onMessage_join iso dts sid jobId now2 s).
    destruct (io s !! sid) as [c|] eqn:E;
      [| by rewrite onMessage_join, E].
    destruct (toString dts jobId) as [room|] eqn:Er;
      [| by rewrite onMessage_join, E, Er].
    rewrite onMessage_join, Er, (io_socket_leave_live _ _ c) by done.
    apply socket_join_leave.
  - intros Hr. rewrite Hlj, onMessage_leave.
    destruct (io s !! sid); [| done].
    destruct (toString dts jobId) as [room|]; [| done].
    apply socket_leave_absent. by apply Hr.
Qed.

Lemma leave_undoes_join_witness :
  let s := Demo.connect "c1" (Demo.bearer "tok-u1") 1 initial in
  ("job:7" ∉ roomsOf "c1" s) ∧
  Demo.onMessage "c1" (LeaveJobRoom (JNum "7")) 3
    (Demo.onMessage "c1" (JoinJobRoom (JNum "7")) 2 s) = s.
Proof.
  intros s.
  destruct (leave_undoes_join Demo.toISOString Demo.dateToString
              "c1" (JNum "7") 2 3 s) as (_ & _ & Hback).
  assert (Hout : "job:7" ∉ roomsOf "c1" s)
    by (apply (bool_decide_unpack _); by vm_compute).
  split; [exact Hout |]. apply Hback. intros room [= <-]. exact Hout.
Defined.

(** ** Connecting and disconnecting *)

Lemma connect_accepted jwt db iso (sid : string) (hs : Handshake) (now : Z)
  (s : SocketManager) (sock : AuthenticatedSocket) :
  middleware jwt db sid hs = inr sock →
  connect jwt db iso sid hs now s = onConnection iso sock now s ∧
  socket_id sock = sid.
Proof.
  intros Hm. split; [unfold connect; by rewrite Hm |].
  apply middleware_inr_inv in Hm as (? & ? & ? & ? & _ & _ & _ & _ & _ & ->).
  done.
Qed.

(** X7: a connection of a user who was not registered, opened under a
    socket id that was not in use and then closed, leaves the registry and
    the live sockets with their rooms exactly as they were before it was
    opened. *)
Theorem connect_then_disconnect_restores jwt db iso (sid : string)
  (hs : Handshake) (now : Z) (s : SocketManager) (sock : AuthenticatedSocket)
  (u : string) :
  middleware jwt db sid hs = inr sock → userId sock = Some u → u ≠ "" →
  ¬ isOpen sid s → isUserConnected u s = false →
  let s' := disconnect sid (connect jwt db iso sid hs now s) in
  connectedUsers s' = connectedUsers s ∧ io s' = io s.
Proof.
  intros Hm Hu Hne Hfresh Hoff s'.
  destruct (connect_accepted jwt db iso sid hs now s sock Hm) as [Ec Hsid].
  pose proof Hne as Ht%truthy_Some.
  assert (Hnone : io s !! sid = None).
  { destruct (io s !! sid) eqn:E; [| done]. destruct Hfresh. by eexists. }
  assert (Hreg : connectedUsers s !! u = None).
  { unfold isUserConnected in Hoff. apply bool_decide_eq_false in Hoff.
    destruct (connectedUsers s !! u) eqn:E; [| done]. destruct Hoff.
    by eexists. }
  unfold s', disconnect. rewrite Ec, io_onConnection, Hsid, lookup_insert_eq.
  cbn [conn_socket io connectedUsers].
  rewrite Hu, Ht, connectedUsers_onConnection, Hu, Ht, Hsid.
  split; [by apply delete_insert_id | by apply delete_insert_id].
Qed.

Lemma connect_then_disconnect_restores_witness :
  let s := Demo.connect "c1" (Demo.bearer "tok-u1") 1 initial in
  let s' := disconnect "c5" (Demo.connect "c5" (Demo.bearer "tok-u2") 2 s) in
  connectedUsers s' = connectedUsers s ∧ io s' = io s.
Proof.
  intros s.
  apply (connect_then_disconnect_restores Demo.jwt_verify Demo.findById
           Demo.toISOString "c5" (Demo.bearer "tok-u2") 2 s
           (Demo.socket "c5" "u2" "employer") "u2").
  - reflexivity.
  - reflexivity.
  - discriminate.
  - apply (bool_decide_unpack _). by vm_compute.
  - reflexivity.
Defined.

(** X8: a newly accepted connection is in no job room, whatever job rooms
    other sockets, or earlier sockets of the same user, are or were in:
    job-room membership is not carried over to a new connection. *)
Theorem new_connection_has_no_job_room jwt db iso (sid : string)
  (hs : Handshake) (now : Z) (s : SocketManager) (sock : AuthenticatedSocket) :
  db_roles_registered db →
  middleware jwt db sid hs = inr sock →
  ∀ room, is_job_room room = true →
    room ∉ roomsOf sid (connect jwt db iso sid hs now s).
Proof.
  intros Hdb Hm room Hroom.
  destruct (connect_accepted jwt db iso sid hs now s sock Hm) as [-> Hsid].
  apply middleware_inr_inv in Hm
    as (tok & dec & uid & doc & _ & _ & _ & _ & Hd & Hs).
  rewrite <- Hsid, roomsOf_onConnection. unfold default_rooms.
  rewrite Hs. cbn [userId userType].
  pose proof (registered_role_not_job_room _ (Hdb _ _ Hd)) as Hr.
  pose proof (user_room_not_job_room (_id doc)) as Hu.
  assert (Ha : is_job_room "admin" = false) by reflexivity.
  intros Hin.
  repeat (apply elem_of_union in Hin as [Hin | Hin]);
    repeat case_decide; repeat case_match;
    try (by apply elem_of_empty in Hin);
    apply elem_of_singleton in Hin; subst room; congruence.
Qed.

Lemma new_connection_has_no_job_room_witness :
  let s := Demo.onMessage "c1" (JoinJobRoom (JStr "42")) 2
             (Demo.connect "c1" (Demo.bearer "tok-u2") 1 initial) in
  "job:42" ∈ roomsOf "c1" s ∧
  is_job_room "job:42" = true ∧
  "job:42" ∉ roomsOf "c2" (Demo.connect "c2" (Demo.bearer "tok-u2") 3
                             (disconnect "c1" s)).
Proof.
  intros s. split; [| split; [reflexivity |]].
  - apply (bool_decide_unpack _). by vm_compute.
  - apply (new_connection_has_no_job_room Demo.jwt_verify Demo.findById
             Demo.toISOString "c2" (Demo.bearer "tok-u2") 3
             (disconnect "c1" s) (Demo.socket "c2" "u2" "employer")).
    + exact demo_roles_registered.
    + reflexivity.
    + reflexivity.
Defined.

(** ** The emit methods *)

Lemma Forall_fanout (P : Packet → Prop) (event : string) (data : JsVal)
  (l : list string) :
  (∀ sid, sid ∈ l →
     P {| pkt_to := sid; pkt_event := event; pkt_data := data |}) →
  Forall P (map (λ sid, {| pkt_to := sid; pkt_event := event;
                           pkt_data := data |}) l).
Proof.
  intros H. apply Forall_forall. intros p Hp.
  change (map ?f l) with (f <$> l) in Hp.
  apply list_elem_of_fmap in Hp as [sid [-> Hsid]]. by apply H.
Qed.

Lemma membersOf_isOpen (sid room : string) (s : SocketManager) :
  sid ∈ membersOf room s → isOpen sid s.
Proof. by intros [? _]%elem_of_membersOf. Qed.

Lemma elem_of_live (sid : string) (s : SocketManager) :
  sid ∈ (map_to_list (io s)).*1 ↔ isOpen sid s.
Proof.
  unfold isOpen. rewrite list_elem_of_fmap. split.
  - intros [[k c] [-> Hin]]. apply elem_of_map_to_list in Hin. by eexists.
  - intros [c Hc]. exists (sid, c). split; [done |].
    by apply elem_of_map_to_list.
Qed.

(** One emit to a room, as far as the properties below need it. *)
Lemma io_to_emit_sound (P : Packet → Prop) (room event : string)
  (data : JsVal) (s0 s : SocketManager) (l0 : list Packet) :
  io s = io s0 → connectedUsers s = connectedUsers s0 →
  sent s = (sent s0 ++ l0)%list → Forall P l0 →
  (∀ sid, isOpen sid s0 →
     P {| pkt_to := sid; pkt_event := event; pkt_data := data |}) →
  let s' := io_to_emit room event data s in
  io s' = io s0 ∧ connectedUsers s' = connectedUsers s0 ∧
  ∃ l, sent s' = (sent s0 ++ l)%list ∧ Forall P l.
Proof.
  intros Hio Hcu Hsent Hl0 HP s'. repeat split; try done.
  eexists. unfold s', io_to_emit; simpl. rewrite Hsent, <- app_assoc.
  split; [reflexivity |]. apply Forall_app. split; [done |].
  apply Forall_fanout. intros sid Hsid%membersOf_isOpen.
  apply HP. unfold isOpen in *. by rewrite <- Hio.
Qed.

Lemma nothing_emitted (P : Packet → Prop) (s : SocketManager) :
  io s = io s ∧ connectedUsers s = connectedUsers s ∧
  ∃ l, sent s = (sent s ++ l)%list ∧ Forall P l.
Proof.
  repeat split. exists []. split; [by rewrite app_nil_r | constructor].
Qed.

(** Whether a call returns or throws, every packet it has emitted goes to
    a live socket and is stamped, and the call has changed nothing but the
    list of emitted packets. *)
Lemma dispatch_sound iso dts reserved (d : Dispatch) (s : SocketManager) :
  let s' := stateOf (dispatch iso dts reserved d s) in
  io s' = io s ∧ connectedUsers s' = connectedUsers s ∧
  ∃ l, sent s' = (sent s ++ l)%list ∧
       Forall (λ p, isOpen (pkt_to p) s ∧ stamped iso d p) l.
Proof.
  assert (H0 : sent s = (sent s ++ [])%list) by (by rewrite app_nil_r).
  assert (F0 : ∀ P : Packet → Prop, Forall P []) by (intros; constructor).
  destruct d; simpl.
  - unfold emitKYCStatusUpdate.
    set (s1 := io_to_emit _ "kyc:status:update" _ s).
    destruct (io_to_emit_sound
                (λ p, isOpen (pkt_to p) s ∧
                      stamped iso (EmitKYCStatusUpdate uid statusData t1 t2) p)
                ("user:" +:+ uid) "kyc:status:update"
                (JObj (<["timestamp" := JDate t1]> (spread statusData)))
                s s [] eq_refl eq_refl H0 (F0 _)) as (Hio & Hcu & l1 & Hs1 & Hl1).
    { intros sid Ho. split; [done |]. exists t1. split; [set_solver |].
      left. simpl. apply lookup_insert_eq. }
    fold s1 in Hio, Hcu, Hs1.
    apply (io_to_emit_sound _ _ _ _ s s1 l1 Hio Hcu Hs1 Hl1).
    intros sid Ho. split; [done |]. exists t2. split; [set_solver |].
    left. simpl. apply lookup_insert_eq.
  - unfold emitJobApproval, io_emit; simpl.
    repeat split; try done. eexists. split; [reflexivity |].
    apply Forall_fanout. intros sid Hsid%elem_of_live. split; [done |].
    exists t. split; [set_solver |]. left. simpl. by simplify_map_eq.
  - apply (io_to_emit_sound _ _ _ _ s s [] eq_refl eq_refl H0 (F0 _)).
    intros sid Ho. split; [done |]. exists t. split; [set_solver |].
    left. simpl. apply lookup_insert_eq.
  - unfold emitToAdmins. destruct (reserved event); simpl;
      [apply nothing_emitted |].
    apply (io_to_emit_sound _ _ _ _ s s [] eq_refl eq_refl H0 (F0 _)).
    intros sid Ho. split; [done |]. exists t. split; [set_solver |].
    left. simpl. apply lookup_insert_eq.
  - unfold emitToUser. destruct (reserved event); simpl;
      [apply nothing_emitted |].
    apply (io_to_emit_sound _ _ _ _ s s [] eq_refl eq_refl H0 (F0 _)).
    intros sid Ho. split; [done |]. exists t. split; [set_solver |].
    left. simpl. apply lookup_insert_eq.
  - unfold notifyJobApproved.
    destruct (getProp jobData "jobTitle" ≫= toString dts) as [title|]; simpl;
      [| apply nothing_emitted].
    destruct (getProp jobData "companyName" ≫= toString dts) as [company|];
      simpl; [| apply nothing_emitted].
    apply (io_to_emit_sound _ _ _ _ s s [] eq_refl eq_refl H0 (F0 _)).
    intros sid Ho. split; [done |]. exists t. split; [set_solver |].
    right. simpl. by simplify_map_eq.
  - unfold notifyJobRejected.
    destruct (getProp jobData "jobTitle" ≫= toString dts) as [title|]; simpl;
      [| apply nothing_emitted].
    apply (io_to_emit_sound _ _ _ _ s s [] eq_refl eq_refl H0 (F0 _)).
    intros sid Ho. split; [done |]. exists t. split; [set_solver |].
    right. simpl. by simplify_map_eq.
  - unfold notifyNewApplication.
    destruct (getProp applicationData "jobTitle" ≫= toString dts)
      as [title|]; simpl; [| apply nothing_emitted].
    set (s1 := io_to_emit _ "new_application" _ s).
    destruct (io_to_emit_sound
                (λ p, isOpen (pkt_to p) s ∧
                      stamped iso (NotifyNewApplication applicationData
                                     employerId t1 t2) p)
                ("user:" +:+ employerId) "new_application"
                (newApplicationEvent iso applicationData title t1)
                s s [] eq_refl eq_refl H0 (F0 _)) as (Hio & Hcu & l1 & Hs1 & Hl1).
    { intros sid Ho. split; [done |]. exists t1. split; [set_solver |].
      right. simpl. by simplify_map_eq. }
    fold s1 in Hio, Hcu, Hs1.
    destruct (getProp applicationData "jobId" ≫= toString dts) as [job|];
      simpl.
    2:{ repeat split; try done. by exists l1. }
    apply (io_to_emit_sound _ _ _ _ s s1 l1 Hio Hcu Hs1 Hl1).
    intros sid Ho. split; [done |]. exists t2. split; [set_solver |].
    right. simpl. by simplify_map_eq.
  - unfold notifyApplicationStatusUpdate.
    destruct (getProp applicationData "status" ≫= toString dts) as [status|];
      simpl; [| apply nothing_emitted].
    apply (io_to_emit_sound _ _ _ _ s s [] eq_refl eq_refl H0 (F0 _)).
    intros sid Ho. split; [done |]. exists t. split; [set_solver |].
    right. simpl. by simplify_map_eq.
Qed.

(** X9: a call of an emit method, whether it returns or throws, changes
    neither the registry nor any live socket, identity or room; the packets
    it hands to the transport follow, in order, those handed over before,
    and each is addressed to a socket that is live at the call.  (What the
    transport keeps of an event for sockets it restores later is no part of
    this statement.) *)
Theorem dispatch_changes_no_registry_or_room iso dts reserved (d : Dispatch)
  (s : SocketManager) :
  let s' := stateOf (dispatch iso dts reserved d s) in
  io s' = io s ∧
  connectedUsers s' = connectedUsers s ∧
  sent s' = (sent s ++ emitted s s')%list ∧
  (∀ p, p ∈ emitted s s' → isOpen (pkt_to p) s).
Proof.
  intros s'.
  destruct (dispatch_sound iso dts reserved d s) as (Hio & Hcu & l & Hs & Hl).
  fold s' in Hio, Hcu, Hs. rewrite (emitted_app s s' l Hs).
  repeat split; try done.
  intros p Hp. by apply (proj1 (Forall_forall _ _) Hl p).
Qed.

(** X10: every packet an emit method sends carries a [timestamp] property
    that is one of the clock readings taken by that call, as a [Date] or as
    its ISO rendering; where the payload is spread into the event, a
    [timestamp] property of the payload is replaced by it. *)
Theorem dispatch_stamps_every_packet iso dts reserved (d : Dispatch)
  (s : SocketManager) :
  ∀ p, p ∈ emitted s (stateOf (dispatch iso dts reserved d s)) →
       stamped iso d p.
Proof.
  destruct (dispatch_sound iso dts reserved d s) as (_ & _ & l & Hs & Hl).
  rewrite (emitted_app _ _ l Hs). intros p Hp.
  by apply (proj1 (Forall_forall _ _) Hl p).
Qed.

Lemma dispatch_stamps_every_packet_witness :
  let s := Demo.connect "c1" (Demo.bearer "tok-u1") 1 initial in
  let payload := JObj {["timestamp" := JStr "yesterday"]} in
  let d := EmitToUser "u1" "notice" payload 8 in
  let p := {| pkt_to := "c1"; pkt_event := "notice";
              pkt_data := JObj (<["timestamp" := JDate 8]> (spread payload)) |} in
  p ∈ emitted s (stateOf (dispatch Demo.toISOString Demo.dateToString
                            Demo.reserved d s)) ∧
  stamped Demo.toISOString d p.
Proof.
  intros s payload d p.
  assert (Hp : p ∈ emitted s (stateOf (dispatch Demo.toISOString
                                         Demo.dateToString Demo.reserved d s))).
  { assert (E : emitted s (stateOf (dispatch Demo.toISOString
                                      Demo.dateToString Demo.reserved d s))
                = [p]) by reflexivity.
    rewrite E. apply list_elem_of_here. }
  split; [exact Hp |].
  apply (dispatch_stamps_every_packet Demo.toISOString Demo.dateToString
           Demo.reserved d s p Hp).
Defined.

Lemma unreadable_property dts (v : JsVal) (k : string) :
  getProp v k ≫= toString dts = None ↔
  v = JUndefined ∨ v = JNull ∨
  ∃ f g, v = JObj f ∧ f !! k = Some (JObj g) ∧ is_Some (g !! "toString").
Proof.
  split.
  - destruct v as [| | b | r | x | ms | f]; simpl; try (by auto);
      try (by destruct b); try discriminate.
    destruct (f !! k) as [w|] eqn:Ek; simpl; [| discriminate].
    destruct w as [| | b | r | x | ms | g]; simpl; try discriminate;
      try (by destruct b).
    destruct (g !! "toString") as [y|] eqn:Eg; [| discriminate].
    intros _. right; right. exists f, g. repeat split; [done |]. by eexists.
  - intros [-> | [-> | (f & g & -> & Hk & [y Hy])]]; [done | done |].
    simpl. rewrite Hk. simpl. by rewrite Hy.
Qed.

(** X11: when the emit methods throw.  The three with a fixed event name
    and a spread or nested payload never do; [emitToAdmins] and
    [emitToUser] throw exactly on an event name the transport reserves;
    each [notify...] method throws exactly when a property it renders into
    its message cannot be read or rendered: the payload is [null] or
    [undefined], or the property is an object with a [toString] property of
    its own. *)
Theorem dispatch_throws_exactly_when iso dts reserved (d : Dispatch)
  (s : SocketManager) :
  let throws := ∃ s', dispatch iso dts reserved d s = Threw s' in
  let unreadable (v : JsVal) (k : string) :=
    v = JUndefined ∨ v = JNull ∨
    ∃ f g, v = JObj f ∧ f !! k = Some (JObj g) ∧ is_Some (g !! "toString") in
  match d with
  | EmitKYCStatusUpdate _ _ _ _ | EmitJobApproval _ _ _
  | EmitNewApplication _ _ _ => ¬ throws
  | EmitToAdmins event _ _ | EmitToUser _ event _ _ =>
      throws ↔ reserved event = true
  | NotifyJobApproved v _ =>
      throws ↔ unreadable v "jobTitle" ∨ unreadable v "companyName"
  | NotifyJobRejected v _ _ => throws ↔ unreadable v "jobTitle"
  | NotifyNewApplication v _ _ _ =>
      throws ↔ unreadable v "jobTitle" ∨ unreadable v "jobId"
  | NotifyApplicationStatusUpdate v _ _ => throws ↔ unreadable v "status"
  end.
Proof.
  intros throws unreadable. unfold throws, unreadable.
  destruct d as [? ? ? ? | ? ? ? | ? ? ? | ev ? ? | ? ev ? ? | v ? | v ? ?
                 | v ? ? ? | v ? ?]; simpl.
  - by intros [? ?].
  - by intros [? ?].
  - by intros [? ?].
  - unfold emitToAdmins. destruct (reserved ev); split; try done.
    + intros _. by eexists.
    + by intros [? ?].
  - unfold emitToUser. destruct (reserved ev); split; try done.
    + intros _. by eexists.
    + by intros [? ?].
  - rewrite <- !(unreadable_property dts). unfold notifyJobApproved.
    destruct (getProp v "jobTitle" ≫= toString dts) as [title|]; simpl.
    + destruct (getProp v "companyName" ≫= toString dts) as [company|];
        simpl; split.
      * by intros [? ?].
      * by intros [? | ?].
      * intros _. by right.
      * intros _. by eexists.
    + split; [intros _; by left | intros _; by eexists].
  - rewrite <- !(unreadable_property dts). unfold notifyJobRejected.
    destruct (getProp v "jobTitle" ≫= toString dts) as [title|]; simpl; split;
      try done.
    + by intros [? ?].
    + intros _. by eexists.
  - rewrite <- !(unreadable_property dts). unfold notifyNewApplication.
    destruct (getProp v "jobTitle" ≫= toString dts) as [title|]; simpl.
    + destruct (getProp v "jobId" ≫= toString dts) as [job|]; simpl; split.
      * by intros [? ?].
      * by intros [? | ?].
      * intros _. by right.
      * intros _. by eexists.
    + split; [intros _; by left | intros _; by eexists].
  - rewrite <- !(unreadable_property dts). unfold notifyApplicationStatusUpdate.
    destruct (getProp v "status" ≫= toString dts) as [status|]; simpl; split;
      try done.
    + by intros [? ?].
    + intros _. by eexists.
Qed.

(** X25: what a call that throws has done by then.  Every emit method
    that throws does so before it has emitted anything, with one
    exception: [notifyNewApplication] renders the job id for the name of
    the job room after its first emit, so when the job title can be
    rendered and the job id cannot, the sockets in the employer's personal
    room have been sent the event when the exception is raised. *)
Theorem throwing_call_has_emitted iso dts reserved (d : Dispatch)
  (s s' : SocketManager) :
  dispatch iso dts reserved d s = Threw s' →
  s' = s ∨
  ∃ applicationData employerId t1 t2 title,
    d = NotifyNewApplication applicationData employerId t1 t2 ∧
    getProp applicationData "jobTitle" ≫= toString dts = Some title ∧
    getProp applicationData "jobId" ≫= toString dts = None ∧
    s' = io_to_emit ("user:" +:+ employerId) "new_application"
           (newApplicationEvent iso applicationData title t1) s.
Proof.
  destruct d as [? ? ? ? | ? ? ? | ? ? ? | ev ? ? | ? ev ? ? | v ? | v ? ?
                 | v e t1 t2 | v ? ?]; simpl; try discriminate.
  - unfold emitToAdmins. destruct (reserved ev); [| discriminate].
    intros [= <-]. by left.
  - unfold emitToUser. destruct (reserved ev); [| discriminate].
    intros [= <-]. by left.
  - unfold notifyJobApproved.
    destruct (getProp v "jobTitle" ≫= toString dts) as [title|]; simpl;
      [| intros [= <-]; by left].
    destruct (getProp v "companyName" ≫= toString dts) as [company|]; simpl;
      [discriminate | intros [= <-]; by left].
  - unfold notifyJobRejected.
    destruct (getProp v "jobTitle" ≫= toString dts) as [title|]; simpl;
      [discriminate | intros [= <-]; by left].
  - unfold notifyNewApplication.
    destruct (getProp v "jobTitle" ≫= toString dts) as [title|] eqn:Et; simpl;
      [| intros [= <-]; by left].
    destruct (getProp v "jobId" ≫= toString dts) as [job|] eqn:Ej; simpl;
      [discriminate |].
    intros [= <-]. right. by exists v, e, t1, t2, title.
  - unfold notifyApplicationStatusUpdate.
    destruct (getProp v "status" ≫= toString dts) as [status|]; simpl;
      [discriminate | intros [= <-]; by left].
Qed.

Lemma throwing_call_has_emitted_witness :
  let s := Demo.connect "c1" (Demo.bearer "tok-u2") 1 initial in
  let application :=
    JObj (<["jobTitle" := JStr "Barista"]>
            {["jobId" := JObj {["toString" := JStr "x"]}]}) in
  ∃ s',
    dispatch Demo.toISOString Demo.dateToString Demo.reserved
      (NotifyNewApplication application "u2" 3 4) s = Threw s' ∧
    received "c1" (emitted s s') =
      [ {| pkt_to := "c1"; pkt_event := "new_application";
           pkt_data := newApplicationEvent Demo.toISOString application
                         "Barista" 3 |} ] ∧
    (s' = s ∨
     ∃ applicationData employerId t1 t2 title,
       NotifyNewApplication application "u2" 3 4 =
         NotifyNewApplication applicationData employerId t1 t2 ∧
       getProp applicationData "jobTitle" ≫= toString Demo.dateToString
         = Some title ∧
       getProp applicationData "jobId" ≫= toString Demo.dateToString = None ∧
       s' = io_to_emit ("user:" +:+ employerId) "new_application"
              (newApplicationEvent Demo.toISOString applicationData title t1)
              s).
Proof.
  intros s application. eexists. split; [reflexivity |].
  split; [reflexivity |].
  apply (throwing_call_has_emitted Demo.toISOString Demo.dateToString
           Demo.reserved (NotifyNewApplication application "u2" 3 4) s).
  reflexivity.
Defined.

(** ** Invariants of the reachable states *)

Lemma identityOf_onMessage iso dts (sid other : string) (m : ClientMsg)
  (now : Z) (s : SocketManager) :
  identityOf other (onMessage iso dts sid m now s) = identityOf other s.
Proof.
  unfold identityOf.
  destruct (onMessage_cases iso dts sid m now s)
    as [-> | [Ho [[x ->] | [[x ->] | (ev & data & ->)]]]]; try done;
    by apply identityOf_alter.
Qed.

Lemma identityOf_onConnection iso (k : AuthenticatedSocket) (now : Z)
  (other : string) (s : SocketManager) :
  identityOf other (onConnection iso k now s) =
  if decide (socket_id k = other) then Some k else identityOf other s.
Proof.
  unfold identityOf. rewrite io_onConnection, lookup_insert.
  by case_decide.
Qed.

Lemma identityOf_disconnect (sid other : string) (s : SocketManager) :
  identityOf other (disconnect sid s) =
  if decide (sid = other) then None else identityOf other s.
Proof.
  unfold identityOf, disconnect. destruct (io s !! sid) as [c|] eqn:E; simpl.
  - rewrite lookup_delete. by case_decide.
  - case_decide; [subst; by rewrite E | done].
Qed.

Lemma roomsOf_disconnect (sid other : string) (s : SocketManager) :
  other ≠ sid → roomsOf other (disconnect sid s) = roomsOf other s.
Proof.
  intros Hne. unfold roomsOf, disconnect.
  destruct (io s !! sid) as [c|]; simpl; [| done].
  by rewrite lookup_delete_ne.
Qed.

Lemma connectedUsers_disconnect (sid : string) (s : SocketManager) :
  connectedUsers (disconnect sid s) =
  match identityOf sid s with
  | Some k =>
      match userId k with
      | Some u => if truthy (Some u) then delete u (connectedUsers s)
                  else connectedUsers s
      | None => connectedUsers s
      end
  | None => connectedUsers s
  end.
Proof.
  unfold disconnect, identityOf. by destruct (io s !! sid) as [c|].
Qed.

Lemma connectedUsers_onMessage iso dts (sid : string) (m : ClientMsg)
  (now : Z) (s : SocketManager) :
  connectedUsers (onMessage iso dts sid m now s) = connectedUsers s.
Proof.
  by destruct (onMessage_cases iso dts sid m now s)
    as [-> | [Ho [[x ->] | [[x ->] | (ev & data & ->)]]]].
Qed.

Lemma same_io (s s' : SocketManager) (sid : string) :
  io s' = io s →
  identityOf sid s' = identityOf sid s ∧ roomsOf sid s' = roomsOf sid s.
Proof. unfold identityOf, roomsOf. by intros ->. Qed.

Lemma isOpen_identityOf (sid : string) (s : SocketManager) :
  isOpen sid s ↔ is_Some (identityOf sid s).
Proof. unfold isOpen, identityOf. by rewrite fmap_is_Some. Qed.

(** *** A restored connection *)

(** [onConnection] is the listener run on a socket just made live in no
    room. *)
Lemma onConnection_listener iso (k : AuthenticatedSocket) (now : Z)
  (s : SocketManager) :
  onConnection iso k now s =
  connectionListener iso k now
    {| connectedUsers := connectedUsers s;
       io := <[socket_id k := {| conn_socket := k; conn_rooms := ∅ |}]> (io s);
       sent := sent s |}.
Proof. reflexivity. Qed.

(** On a restored socket the listener registers nothing and joins nothing:
    it only sends the acknowledgment, without an identity in it. *)
Lemma onRecovery_ack iso (sid : string) (rooms : gset string)
  (missed : list (string * JsVal)) (now : Z) (s : SocketManager) :
  onRecovery iso sid rooms missed now s =
  socket_emit sid "connected" (connectedEvent iso (anonymous sid) now)
    (restoreSocket sid rooms missed s).
Proof. reflexivity. Qed.

Lemma identityOf_onRecovery iso (sid other : string) (rooms : gset string)
  (missed : list (string * JsVal)) (now : Z) (s : SocketManager) :
  identityOf other (onRecovery iso sid rooms missed now s) =
  if decide (sid = other) then Some (anonymous sid) else identityOf other s.
Proof.
  rewrite onRecovery_ack. unfold identityOf, socket_emit, restoreSocket; simpl.
  rewrite lookup_insert. by case_decide.
Qed.

Lemma roomsOf_onRecovery iso (sid other : string) (rooms : gset string)
  (missed : list (string * JsVal)) (now : Z) (s : SocketManager) :
  roomsOf other (onRecovery iso sid rooms missed now s) =
  if decide (sid = other) then rooms else roomsOf other s.
Proof.
  rewrite onRecovery_ack. unfold roomsOf, socket_emit, restoreSocket; simpl.
  rewrite lookup_insert. by case_decide.
Qed.

Lemma connectedUsers_onRecovery iso (sid : string) (rooms : gset string)
  (missed : list (string * JsVal)) (now : Z) (s : SocketManager) :
  connectedUsers (onRecovery iso sid rooms missed now s) = connectedUsers s.
Proof. by rewrite onRecovery_ack. Qed.

(** *** The invariants *)

Lemma sockets_wf_frame (s s' : SocketManager) :
  sockets_wf s →
  (∀ sid, identityOf sid s' = identityOf sid s) →
  (∀ sid room, is_job_room room = false →
     (room ∈ roomsOf sid s' ↔ room ∈ roomsOf sid s)) →
  sockets_wf s'.
Proof.
  intros Hs Hid Hrooms sid k Hk. rewrite Hid in Hk.
  destruct (Hs sid k Hk) as (H1 & H2 & H3). repeat split; try done.
  - by apply H3.
  - by apply H3.
  - intros Hin. apply H3; [done.. |]. by apply Hrooms.
  - intros Hin. apply Hrooms; [done |]. by apply H3.
Qed.

Lemma registry_wf_frame (s s' : SocketManager) :
  registry_wf s →
  connectedUsers s' = connectedUsers s →
  (∀ sid, identityOf sid s' = identityOf sid s) →
  registry_wf s'.
Proof.
  intros Hr Hcu Hid u sid. rewrite Hcu, Hid. apply Hr.
Qed.

Lemma roles_wf_frame (s s' : SocketManager) :
  roles_wf s → (∀ sid, identityOf sid s' = identityOf sid s) → roles_wf s'.
Proof. intros Hr Hid sid k r. rewrite Hid. apply Hr. Qed.

(** The three invariants hold in every reachable state (the last one when
    the stored accounts carry registered roles). *)
Lemma reachable_wf jwt db iso dts reserved (sv : Server) :
  reachable jwt db iso dts reserved sv →
  sockets_wf (manager sv) ∧ registry_wf (manager sv) ∧
  (db_roles_registered db → roles_wf (manager sv)).
Proof.
  induction 1 as [| sv sid hs now Hr (IHs & IHr & IHd) Hfresh
                  | sv sid rec Hr (IHs & IHr & IHd)
                  | sv sid rooms missed now Hr (IHs & IHr & IHd) Hsess Hfresh
                  | sv sid Hr IH
                  | sv sid m now Hr (IHs & IHr & IHd)
                  | sv d Hr (IHs & IHr & IHd)]; simpl.
  - repeat split; try done; intros ? ? * H; by rewrite ?lookup_empty in H.
  - set (s := manager sv) in *. unfold connect.
    destruct (middleware jwt db sid hs) as [e | sock] eqn:Hm; [done |].
    pose proof (middleware_inr_inv _ _ _ _ _ Hm)
      as (tok & dec & uid & doc & _ & _ & _ & _ & Hdoc & Hsock).
    assert (Hsid : socket_id sock = sid) by (by rewrite Hsock).
    split; [| split].
    + intros sid' k. rewrite identityOf_onConnection, Hsid.
      case_decide as Hd.
      * intros [= <-]. subst sid'. split; [done |].
        split; [rewrite Hsock; discriminate |]. intros _.
        rewrite Hsock; simpl. repeat split; try (by eexists).
        -- rewrite <- Hsock. intros Hin. rewrite <- Hsid in Hin.
           by rewrite roomsOf_onConnection in Hin.
        -- rewrite <- Hsock. intros Hin. rewrite <- Hsid.
           by rewrite roomsOf_onConnection.
      * intros Hk. destruct (IHs sid' k Hk) as (H1 & H2 & H3).
        repeat split; try done; try (by apply H3); intros Hin.
        -- apply H3; [done.. |].
           by rewrite roomsOf_onConnection_other in Hin by (by rewrite Hsid).
        -- rewrite roomsOf_onConnection_other by (by rewrite Hsid).
           by apply H3.
    + intros u sid'. rewrite connectedUsers_onConnection.
      assert (Hold : connectedUsers s !! u = Some sid' →
                u ≠ "" ∧ ∃ k, identityOf sid'
                                (onConnection iso sock now s) = Some k ∧
                              userId k = Some u).
      { intros Hu. destruct (IHr u sid' Hu) as (Hne & k & Hk & Hku).
        split; [done |]. exists k. split; [| done].
        rewrite identityOf_onConnection, Hsid, decide_False; [done |].
        intros <-. apply Hfresh, isOpen_identityOf. by eexists. }
      destruct (userId sock) as [u0|] eqn:Hu0; [| done].
      destruct (truthy (Some u0)) eqn:Ht; [| done].
      rewrite lookup_insert. case_decide as Hd; [| done].
      intros [= <-]. subst u0. split; [by apply truthy_Some |].
      exists sock. split; [| done].
      by rewrite identityOf_onConnection, decide_True.
    + intros Hdb sid' k r. rewrite identityOf_onConnection, Hsid.
      case_decide as Hd.
      * intros [= <-]. rewrite Hsock; simpl. intros [= <-]. by eapply Hdb.
      * by apply IHd.
  - set (s := manager sv) in *. split; [| split].
    + intros sid' k. rewrite identityOf_disconnect. case_decide; [done |].
      intros Hk. destruct (IHs sid' k Hk) as (H1 & H2 & H3).
      repeat split; try done; try (by apply H3);
        rewrite roomsOf_disconnect by done; by apply H3.
    + intros u sid'. rewrite connectedUsers_disconnect.
      assert (Hold : connectedUsers s !! u = Some sid' →
                (∀ k, identityOf sid s = Some k → userId k ≠ Some u) →
                u ≠ "" ∧ ∃ k, identityOf sid' (disconnect sid s) = Some k ∧
                              userId k = Some u).
      { intros Hu Hother. destruct (IHr u sid' Hu) as (Hne & k & Hk & Hku).
        split; [done |]. exists k. split; [| done].
        rewrite identityOf_disconnect, decide_False; [done |].
        intros <-. by apply (Hother k). }
      destruct (identityOf sid s) as [k0|] eqn:Hk0.
      2:{ intros Hu. apply Hold; [done |]. by intros k. }
      destruct (userId k0) as [u0|] eqn:Hu0.
      2:{ intros Hu. apply Hold; [done |]. intros k [= <-]. congruence. }
      destruct (truthy (Some u0)) eqn:Ht.
      * intros [Hne Hu]%lookup_delete_Some. apply Hold; [done |].
        intros k [= <-]. congruence.
      * intros Hu. apply Hold; [done |]. intros k [= <-] Hk.
        destruct (IHr u sid' Hu) as (Hne%truthy_Some & _). congruence.
    + intros Hdb sid' k r. rewrite identityOf_disconnect.
      case_decide; [done |]. by apply IHd.
  - set (s := manager sv) in *. split; [| split].
    + intros sid' k. rewrite identityOf_onRecovery. case_decide as Hd.
      * intros [= <-]. subst sid'. split; [done |]. split; [done |].
        intros [x Hx]. discriminate.
      * intros Hk. destruct (IHs sid' k Hk) as (H1 & H2 & H3).
        repeat split; try done; try (by apply H3);
          rewrite roomsOf_onRecovery, decide_False by done; by apply H3.
    + intros u sid'. rewrite connectedUsers_onRecovery. intros Hu.
      destruct (IHr u sid' Hu) as (Hne & k & Hk & Hku).
      split; [done |]. exists k. split; [| done].
      rewrite identityOf_onRecovery, decide_False; [done |].
      intros <-. apply Hfresh, isOpen_identityOf. by eexists.
    + intros Hdb sid' k r. rewrite identityOf_onRecovery. case_decide as Hd.
      * by intros [= <-].
      * by apply IHd.
  - exact IH.
  - split; [| split].
    + apply (sockets_wf_frame (manager sv)); [done | |].
      * intros sid'. apply identityOf_onMessage.
      * intros sid' room Hroom. by apply roomsOf_onMessage.
    + apply (registry_wf_frame (manager sv)); [done | |].
      * apply connectedUsers_onMessage.
      * intros sid'. apply identityOf_onMessage.
    + intros Hdb. apply (roles_wf_frame (manager sv)); [by apply IHd |].
      intros sid'. apply identityOf_onMessage.
  - destruct (dispatch_sound iso dts reserved d (manager sv))
      as (Hio & Hcu & _).
    split; [| split].
    + apply (sockets_wf_frame (manager sv)); [done | |].
      * intros sid'. by destruct (same_io _ _ sid' Hio).
      * intros sid' room _. by destruct (same_io _ _ sid' Hio) as [_ ->].
    + apply (registry_wf_frame (manager sv)); [done | done |].
      intros sid'. by destruct (same_io _ _ sid' Hio).
    + intros Hdb. apply (roles_wf_frame (manager sv)); [by apply IHd |].
      intros sid'. by destruct (same_io _ _ sid' Hio).
Qed.

Lemma elem_of_default_rooms (k : AuthenticatedSocket) (room : string) :
  room ∈ default_rooms k ↔
  (userType k = Some "admin" ∧ room = "admin") ∨
  (∃ r, userType k = Some r ∧ r ≠ "" ∧ room = r) ∨
  (∃ u, userId k = Some u ∧ u ≠ "" ∧ room = "user:" +:+ u).
Proof.
  unfold default_rooms. rewrite !elem_of_union. split.
  - intros [[Ha | Hr] | Hu].
    + case_decide; [| by apply elem_of_empty in Ha].
      apply elem_of_singleton in Ha. by left.
    + destruct (userType k) as [r|]; [| by apply elem_of_empty in Hr].
      destruct (truthy (Some r)) eqn:Ht; [| by apply elem_of_empty in Hr].
      apply elem_of_singleton in Hr. apply truthy_Some in Ht.
      right; left. by exists r.
    + destruct (userId k) as [u|]; [| by apply elem_of_empty in Hu].
      destruct (truthy (Some u)) eqn:Ht; [| by apply elem_of_empty in Hu].
      apply elem_of_singleton in Hu. apply truthy_Some in Ht.
      right; right. by exists u.
  - intros [[Ha ->] | [(r & Hr & Hne%truthy_Some & ->)
                      | (u & Hu & Hne%truthy_Some & ->)]].
    + left; left. rewrite decide_True by done. by apply elem_of_singleton.
    + left; right. rewrite Hr, Hne. by apply elem_of_singleton.
    + right. rewrite Hu, Hne. by apply elem_of_singleton.
Qed.

Lemma registered_role_not_user_room (r u : string) :
  r ∈ registered_roles → r ≠ "user:" +:+ u.
Proof.
  unfold registered_roles. intros H.
  repeat (apply elem_of_cons in H as [-> | H]; [discriminate |]).
  by apply elem_of_nil in H.
Qed.

(** For a socket that carries an identity, being in a personal room or in
    a role room is a matter of that identity. *)
Lemma members_of_user_room (sid u : string) (k : AuthenticatedSocket)
  (s : SocketManager) :
  sockets_wf s → roles_wf s →
  identityOf sid s = Some k → is_Some (userId k) →
  sid ∈ membersOf ("user:" +:+ u) s ↔ userId k = Some u ∧ u ≠ "".
Proof.
  intros Hs Hroles Hk Hid. rewrite elem_of_membersOf, isOpen_identityOf.
  destruct (Hs sid k Hk) as (_ & _ & H3).
  destruct (H3 Hid) as (_ & _ & Hrooms). split.
  - intros [_ Hin].
    apply Hrooms in Hin; [| apply user_room_not_job_room].
    apply elem_of_default_rooms
      in Hin as [[_ ?] | [(r & Hr & _ & Heq) | (u' & Hu' & Hne & Heq)]].
    + discriminate.
    + exfalso. apply (registered_role_not_user_room r u); [| done].
      by eapply Hroles.
    + apply (inj (String.append "user:")) in Heq. by subst.
  - intros (Hu & Hne). split; [by eexists |].
    apply Hrooms; [apply user_room_not_job_room |].
    apply elem_of_default_rooms. right; right. by exists u.
Qed.

Lemma members_of_role_room (sid r : string) (k : AuthenticatedSocket)
  (s : SocketManager) :
  sockets_wf s → r ∈ registered_roles →
  identityOf sid s = Some k → is_Some (userId k) →
  sid ∈ membersOf r s ↔ userType k = Some r.
Proof.
  intros Hs Hreg Hk Hid. rewrite elem_of_membersOf, isOpen_identityOf.
  pose proof (registered_role_not_job_room r Hreg) as Hjob.
  pose proof (registered_role_truthy r Hreg) as Hne%truthy_Some.
  destruct (Hs sid k Hk) as (_ & _ & H3).
  destruct (H3 Hid) as (_ & _ & Hrooms). split.
  - intros [_ Hin]. apply Hrooms in Hin; [| done].
    apply elem_of_default_rooms
      in Hin as [[Ha ->] | [(r' & Hr & _ & ->) | (u' & Hu' & _ & Heq)]].
    + done.
    + done.
    + exfalso. by apply (registered_role_not_user_room r u').
  - intros Hr. split; [by eexists |]. apply Hrooms; [done |].
    apply elem_of_default_rooms. right; left. by exists r.
Qed.

(** *** The two example runs are runs of the server *)

Lemma demo_two_sockets_reachable :
  reachable Demo.jwt_verify Demo.findById Demo.toISOString Demo.dateToString
    Demo.reserved DemoServer.two_sockets.
Proof.
  apply reach_connect.
  - apply reach_connect; [apply reach_boot |].
    apply (bool_decide_unpack _). by vm_compute.
  - apply (bool_decide_unpack _). by vm_compute.
Qed.

Lemma demo_restored_reachable :
  reachable Demo.jwt_verify Demo.findById Demo.toISOString Demo.dateToString
    Demo.reserved DemoServer.restored.
Proof.
  apply reach_recover.
  - apply reach_close, demo_two_sockets_reachable.
  - reflexivity.
  - apply (bool_decide_unpack _). by vm_compute.
Qed.

(** X13: in every reachable state of the server, restored connections
    included, a registry entry names a live socket that carries that
    user's identity and is in the user's personal room.  Hence
    [isUserConnected] never reports a user as connected who has no open
    connection. *)
Theorem registry_entries_are_live jwt db iso dts reserved (sv : Server)
  (u sid : string) :
  reachable jwt db iso dts reserved sv →
  registry_holds (manager sv) u sid →
  isOpen sid (manager sv) ∧
  (∃ k, identityOf sid (manager sv) = Some k ∧ socket_id k = sid ∧
        userId k = Some u) ∧
  "user:" +:+ u ∈ roomsOf sid (manager sv) ∧
  sid ∈ membersOf ("user:" +:+ u) (manager sv).
Proof.
  intros Hr Hreg. destruct (reachable_wf _ _ _ _ _ _ Hr) as (Hs & Hrw & _).
  destruct (Hrw u sid Hreg) as (Hne & k & Hk & Hu).
  destruct (Hs sid k Hk) as (Hsid & _ & H3).
  destruct (H3 ltac:(by eexists)) as (_ & _ & Hrooms).
  assert (Ho : isOpen sid (manager sv))
    by (apply isOpen_identityOf; by eexists).
  assert (Hin : "user:" +:+ u ∈ roomsOf sid (manager sv)).
  { apply Hrooms; [apply user_room_not_job_room |].
    apply elem_of_default_rooms. right; right. by exists u. }
  repeat split; try done.
  - by exists k.
  - by apply elem_of_membersOf.
Qed.

Lemma registry_entries_are_live_witness :
  let s := manager DemoServer.two_sockets in
  isOpen "c2" s ∧
  (∃ k, identityOf "c2" s = Some k ∧ socket_id k = "c2" ∧
        userId k = Some "u3") ∧
  "user:u3" ∈ roomsOf "c2" s ∧
  "c2" ∈ membersOf "user:u3" s.
Proof.
  apply (registry_entries_are_live Demo.jwt_verify Demo.findById
           Demo.toISOString Demo.dateToString Demo.reserved
           DemoServer.two_sockets "u3" "c2").
  - exact demo_two_sockets_reachable.
  - reflexivity.
Defined.

(** X14: in every reachable state of the server each live socket is filed
    under its own id, and its identity is whole: either userId, role and
    email are all set, as the middleware sets them (and the role is one
    accounts are created with when the account store holds no other), or,
    on a socket the transport has restored, none of them is. *)
Theorem live_socket_identity_is_whole jwt db iso dts reserved (sv : Server)
  (sid : string) :
  reachable jwt db iso dts reserved sv →
  isOpen sid (manager sv) →
  ∃ k,
    identityOf sid (manager sv) = Some k ∧ socket_id k = sid ∧
    ((∃ u r e, userId k = Some u ∧ userType k = Some r ∧
               userEmail k = Some e ∧
               (db_roles_registered db → r ∈ registered_roles)) ∨
     (userId k = None ∧ userType k = None ∧ userEmail k = None)).
Proof.
  intros Hr [k Hk]%isOpen_identityOf.
  destruct (reachable_wf _ _ _ _ _ _ Hr) as (Hs & _ & Hroles).
  destruct (Hs sid k Hk) as (Hsid & Hnone & Hsome).
  exists k. split; [done |]. split; [done |].
  destruct (userId k) as [u|] eqn:Hu.
  - left. destruct (Hsome ltac:(by eexists)) as ([r Hrl] & [e He] & _).
    exists u, r, e. repeat split; try done.
    intros Hdb. by apply (Hroles Hdb sid k r).
  - right. by rewrite (Hnone eq_refl).
Qed.

Lemma live_socket_identity_is_whole_witness :
  let s := manager DemoServer.restored in
  (∃ k,
     identityOf "c1" s = Some k ∧ socket_id k = "c1" ∧
     ((∃ u r e, userId k = Some u ∧ userType k = Some r ∧
                userEmail k = Some e ∧
                (db_roles_registered Demo.findById → r ∈ registered_roles)) ∨
      (userId k = None ∧ userType k = None ∧ userEmail k = None))) ∧
  identityOf "c1" s = Some (anonymous "c1") ∧
  identityOf "c2" s = Some (Demo.socket "c2" "u3" "admin").
Proof.
  split; [| split; reflexivity].
  apply (live_socket_identity_is_whole Demo.jwt_verify Demo.findById
           Demo.toISOString Demo.dateToString Demo.reserved
           DemoServer.restored "c1").
  - exact demo_restored_reachable.
  - by vm_compute; eexists.
Defined.

(** X15: in every reachable state of the server over an account store
    with registered roles, a live socket that carries an identity is in
    the personal room [user:u] exactly if it is authenticated as [u], and
    in a role room exactly if that is its role.  (A restored socket
    carries no identity; it is in the rooms of its session.) *)
Theorem room_members_follow_identity jwt db iso dts reserved (sv : Server)
  (sid : string) (k : AuthenticatedSocket) :
  reachable jwt db iso dts reserved sv → db_roles_registered db →
  identityOf sid (manager sv) = Some k → is_Some (userId k) →
  (∀ u, sid ∈ membersOf ("user:" +:+ u) (manager sv) ↔
        userId k = Some u ∧ u ≠ "") ∧
  (∀ r, r ∈ registered_roles →
        (sid ∈ membersOf r (manager sv) ↔ userType k = Some r)).
Proof.
  intros Hr Hdb Hk Hid.
  destruct (reachable_wf _ _ _ _ _ _ Hr) as (Hs & _ & Hroles).
  split.
  - intros u. apply members_of_user_room; try done. by apply Hroles.
  - intros r Hreg. by apply members_of_role_room.
Qed.

Lemma room_members_follow_identity_witness :
  let s := manager DemoServer.restored in
  let k := Demo.socket "c2" "u3" "admin" in
  (∀ u, "c2" ∈ membersOf ("user:" +:+ u) s ↔ userId k = Some u ∧ u ≠ "") ∧
  (∀ r, r ∈ registered_roles →
        ("c2" ∈ membersOf r s ↔ userType k = Some r)).
Proof.
  apply (room_members_follow_identity Demo.jwt_verify Demo.findById
           Demo.toISOString Demo.dateToString Demo.reserved
           DemoServer.restored "c2" (Demo.socket "c2" "u3" "admin")).
  - exact demo_restored_reachable.
  - exact demo_roles_registered.
  - reflexivity.
  - by eexists.
Defined.

(** What one emit to a room hands to a socket: for a socket with an
    identity it is decided by [P], which says who belongs in the room; for
    a restored socket by the rooms of its session. *)
Lemma received_by_audience (P : AuthenticatedSocket → Prop)
  `{∀ k, Decision (P k)} (sid room event : string) (data : JsVal)
  (s : SocketManager) :
  (∀ k, identityOf sid s = Some k → is_Some (userId k) →
        (sid ∈ membersOf room s ↔ P k)) →
  received sid (emitted s (io_to_emit room event data s)) =
  match identityOf sid s with
  | Some k =>
      match userId k with
      | Some _ =>
          if decide (P k)
          then [ {| pkt_to := sid; pkt_event := event; pkt_data := data |} ]
          else []
      | None =>
          if decide (room ∈ roomsOf sid s)
          then [ {| pkt_to := sid; pkt_event := event; pkt_data := data |} ]
          else []
      end
  | None => []
  end.
Proof.
  intros Hiff. rewrite received_io_to_emit.
  destruct (identityOf sid s) as [k|] eqn:Hk.
  - destruct (userId k) as [u|] eqn:Hu.
    + assert (Hm : sid ∈ membersOf room s ↔ P k).
      { apply (Hiff k eq_refl). rewrite Hu. by eexists. }
      destruct (decide (P k)) as [Hp | Hp].
      * rewrite decide_True; [done | by apply Hm].
      * rewrite decide_False; [done |]. intros ?. by apply Hp, Hm.
    + assert (Hm : sid ∈ membersOf room s ↔ room ∈ roomsOf sid s).
      { rewrite elem_of_membersOf, isOpen_identityOf, Hk.
        split; [by intros [_ ?] | intros ?; split; [by eexists | done]]. }
      destruct (decide (room ∈ roomsOf sid s)) as [Hp | Hp].
      * rewrite decide_True; [done | by apply Hm].
      * rewrite decide_False; [done |]. intros ?. by apply Hp, Hm.
  - rewrite decide_False; [done |].
    intros [Ho _]%elem_of_membersOf. apply isOpen_identityOf in Ho.
    rewrite Hk in Ho. by destruct Ho.
Qed.

(** X16: in a reachable state of the server, [emitToUser] with an event
    name the transport accepts hands the event, with the payload's
    properties and the dispatcher's timestamp, exactly once to every live
    socket authenticated as that user and to no socket authenticated as
    anyone else; a restored socket, which carries no identity, is handed it
    exactly if its session placed it in the user's personal room. *)
Theorem emitToUser_reaches_the_users_sockets jwt db iso dts reserved
  (sv : Server) (u event : string) (data : JsVal) (t : Z) (sid : string) :
  reachable jwt db iso dts reserved sv → db_roles_registered db →
  reserved event = false →
  let s := manager sv in
  let packet := {| pkt_to := sid; pkt_event := event;
                   pkt_data := JObj (<["timestamp" := JDate t]> (spread data)) |} in
  ∃ s',
    emitToUser reserved u event data t s = Returned s' ∧
    received sid (emitted s s') =
    match identityOf sid s with
    | Some k =>
        match userId k with
        | Some _ => if decide (userId k = Some u ∧ u ≠ "") then [packet] else []
        | None =>
            if decide ("user:" +:+ u ∈ roomsOf sid s) then [packet] else []
        end
    | None => []
    end.
Proof.
  intros Hr Hdb Hev s packet.
  destruct (reachable_wf _ _ _ _ _ _ Hr) as (Hs & _ & Hroles).
  unfold emitToUser. rewrite Hev. eexists. split; [reflexivity |].
  apply (received_by_audience (λ k, userId k = Some u ∧ u ≠ "")).
  intros k Hk Hid. apply members_of_user_room; try done. by apply Hroles.
Qed.

Lemma emitToUser_reaches_the_users_sockets_witness :
  let s := manager DemoServer.restored in
  let packet sid := {| pkt_to := sid; pkt_event := "notice";
                       pkt_data := JObj (<["timestamp" := JDate 7]>
                                           (spread (JStr "hi"))) |} in
  (∃ s',
     emitToUser Demo.reserved "u1" "notice" (JStr "hi") 7 s = Returned s' ∧
     received "c1" (emitted s s') =
     match identityOf "c1" s with
     | Some k =>
         match userId k with
         | Some _ =>
             if decide (userId k = Some "u1" ∧ "u1" ≠ "") then [packet "c1"]
             else []
         | None =>
             if decide ("user:" +:+ "u1" ∈ roomsOf "c1" s) then [packet "c1"]
             else []
         end
     | None => []
     end) ∧
  received "c1" (emitted s (stateOf (emitToUser Demo.reserved "u1" "notice"
                                      (JStr "hi") 7 s))) = [packet "c1"] ∧
  received "c2" (emitted s (stateOf (emitToUser Demo.reserved "u1" "notice"
                                      (JStr "hi") 7 s))) = [].
Proof.
  intros s packet. split; [| split; reflexivity].
  apply (emitToUser_reaches_the_users_sockets Demo.jwt_verify Demo.findById
           Demo.toISOString Demo.dateToString Demo.reserved
           DemoServer.restored "u1" "notice" (JStr "hi") 7 "c1").
  - exact demo_restored_reachable.
  - exact demo_roles_registered.
  - reflexivity.
Defined.

(** X17: in a reachable state of the server, [emitToAdmins] (with an
    event name the transport accepts) is handed, once each, to exactly the
    sockets authenticated with role [admin], and [notifyJobApproved], when
    it returns, to exactly those with role [student], with the job payload
    under [job]; a restored socket, which carries no identity, is handed
    them exactly if its session placed it in the room. *)
Theorem role_emits_reach_the_role jwt db iso dts reserved (sv : Server)
  (sid : string) :
  reachable jwt db iso dts reserved sv →
  let s := manager sv in
  let audience (role event : string) (data : JsVal) : list Packet :=
    match identityOf sid s with
    | Some k =>
        match userId k with
        | Some _ =>
            if decide (userType k = Some role)
            then [ {| pkt_to := sid; pkt_event := event; pkt_data := data |} ]
            else []
        | None =>
            if decide (role ∈ roomsOf sid s)
            then [ {| pkt_to := sid; pkt_event := event; pkt_data := data |} ]
            else []
        end
    | None => []
    end in
  (∀ event data t,
     reserved event = false →
     ∃ s', emitToAdmins reserved event data t s = Returned s' ∧
           received sid (emitted s s') =
             audience "admin" event
               (JObj (<["timestamp" := JDate t]> (spread data)))) ∧
  (∀ jobData t s',
     notifyJobApproved iso dts jobData t s = Returned s' →
     ∃ ev,
       fieldsOf ev !! "job" = Some jobData ∧
       received sid (emitted s s') = audience "student" "job_approved" ev).
Proof.
  intros Hr s audience.
  destruct (reachable_wf _ _ _ _ _ _ Hr) as (Hs & _ & _).
  assert (Hadmin : "admin" ∈ registered_roles)
    by (unfold registered_roles; set_solver).
  assert (Hstudent : "student" ∈ registered_roles)
    by (unfold registered_roles; set_solver).
  split.
  - intros event data t Hev. unfold emitToAdmins. rewrite Hev.
    eexists. split; [reflexivity |].
    apply (received_by_audience (λ k, userType k = Some "admin")).
    intros k Hk Hid. by apply members_of_role_room.
  - intros jobData t s'. unfold notifyJobApproved.
    destruct (getProp jobData "jobTitle" ≫= toString dts) as [title|];
      [| discriminate].
    destruct (getProp jobData "companyName" ≫= toString dts) as [company|];
      [| discriminate].
    simpl. intros [= <-]. eexists. split.
    2:{ apply (received_by_audience (λ k, userType k = Some "student")).
        intros k Hk Hid. by apply members_of_role_room. }
    simpl. by simplify_map_eq.
Qed.

Lemma role_emits_reach_the_role_witness :
  let s := manager DemoServer.restored in
  let jobData := JObj {["jobTitle" := JStr "Barista"]} in
  ∃ ev s',
    notifyJobApproved Demo.toISOString Demo.dateToString jobData 9 s
      = Returned s' ∧
    fieldsOf ev !! "job" = Some jobData ∧
    received "c1" (emitted s s') =
      [ {| pkt_to := "c1"; pkt_event := "job_approved"; pkt_data := ev |} ] ∧
    received "c2" (emitted s s') = [].
Proof.
  intros s jobData.
  destruct (role_emits_reach_the_role Demo.jwt_verify Demo.findById
              Demo.toISOString Demo.dateToString Demo.reserved
              DemoServer.restored "c1" demo_restored_reachable)
    as [_ Hstudent].
  destruct (Hstudent jobData 9%Z _ eq_refl) as (ev & Hjob & Hrecv).
  exists ev. eexists. split; [reflexivity |]. split; [exact Hjob |].
  split; [exact Hrecv | reflexivity].
Defined.

(** X18: [emitJobApproval] hands its event, carrying the job id, the job
    payload and the dispatcher's timestamp, exactly once to every live
    socket, whatever its role or rooms, and to no other. *)
Theorem emitJobApproval_reaches_every_live_socket (jobId : string)
  (jobData : JsVal) (t : Z) (s : SocketManager) (sid : string) :
  received sid (emitted s (emitJobApproval jobId jobData t s)) =
  if decide (isOpen sid s)
  then [ {| pkt_to := sid; pkt_event := "job:approved";
            pkt_data := JObj (<["jobId" := JStr jobId]>
                             (<["job" := jobData]>
                             (<["timestamp" := JDate t]> ∅))) |} ]
  else [].
Proof.
  unfold emitJobApproval, emitted, io_emit; simpl.
  rewrite drop_app_length, received_fanout by apply NoDup_fst_map_to_list.
  destruct (decide (isOpen sid s)) as [Ho | Ho].
  - rewrite decide_True; [done | by apply elem_of_live].
  - rewrite decide_False; [done | by rewrite elem_of_live].
Qed.

(** ** Registry bookkeeping *)

(** X19: an accepted connection of user [u] raises the connected-users
    count by one when [u] was not registered and leaves it unchanged when
    [u] was: the count is a count of users, not of connections. *)
Theorem accepted_connection_counts_users jwt db iso (sid : string)
  (hs : Handshake) (now : Z) (s : SocketManager) (sock : AuthenticatedSocket)
  (u : string) :
  middleware jwt db sid hs = inr sock → userId sock = Some u → u ≠ "" →
  getConnectedUsersCount (connect jwt db iso sid hs now s) =
  if isUserConnected u s then getConnectedUsersCount s
  else S (getConnectedUsersCount s).
Proof.
  intros Hm Hu Hne%truthy_Some.
  destruct (connect_accepted jwt db iso sid hs now s sock Hm) as [-> Hsid].
  unfold getConnectedUsersCount, isUserConnected.
  rewrite connectedUsers_onConnection, Hu, Hne, map_size_insert.
  destruct (connectedUsers s !! u) as [old|] eqn:E.
  - rewrite bool_decide_eq_true_2 by (by eexists). done.
  - rewrite bool_decide_eq_false_2 by (by intros [? ?]). done.
Qed.

Lemma accepted_connection_counts_users_witness :
  let s := Demo.connect "c1" (Demo.bearer "tok-u1") 1 initial in
  getConnectedUsersCount (Demo.connect "c2" (Demo.bearer "tok-u1") 2 s) =
    getConnectedUsersCount s ∧
  getConnectedUsersCount (Demo.connect "c3" (Demo.bearer "tok-u2") 2 s) =
    S (getConnectedUsersCount s).
Proof.
  intros s. split.
  - apply (accepted_connection_counts_users Demo.jwt_verify Demo.findById
             Demo.toISOString "c2" (Demo.bearer "tok-u1") 2 s
             (Demo.socket "c2" "u1" "student") "u1");
      [reflexivity | reflexivity | discriminate].
  - apply (accepted_connection_counts_users Demo.jwt_verify Demo.findById
             Demo.toISOString "c3" (Demo.bearer "tok-u2") 2 s
             (Demo.socket "c3" "u2" "employer") "u2");
      [reflexivity | reflexivity | discriminate].
Defined.

(** X20: when a live socket closes it is no longer live and is in no room;
    the identities and rooms of all other sockets, the registry entries of
    all other users and the packets already emitted are untouched; and a
    second close of the same socket changes nothing. *)
Theorem disconnect_affects_only_the_closing_socket (sid : string)
  (k : AuthenticatedSocket) (s : SocketManager) :
  identityOf sid s = Some k →
  let s' := disconnect sid s in
  ¬ isOpen sid s' ∧
  roomsOf sid s' = ∅ ∧
  (∀ other, other ≠ sid →
     identityOf other s' = identityOf other s ∧
     roomsOf other s' = roomsOf other s) ∧
  (∀ u, userId k ≠ Some u → connectedUsers s' !! u = connectedUsers s !! u) ∧
  sent s' = sent s ∧
  disconnect sid s' = s'.
Proof.
  intros Hk s'.
  assert (Hclosed : io s' !! sid = None).
  { unfold s', disconnect. destruct (io s !! sid) as [c|] eqn:E; [| done].
    simpl. apply lookup_delete_eq. }
  split; [| split; [| split; [| split; [| split]]]].
  - unfold isOpen. rewrite Hclosed. by intros [? ?].
  - unfold roomsOf. by rewrite Hclosed.
  - intros other Hne. unfold s'. split.
    + rewrite identityOf_disconnect. by rewrite decide_False.
    + by apply roomsOf_disconnect.
  - intros u Hu. unfold s'. rewrite connectedUsers_disconnect, Hk.
    destruct (userId k) as [u0|]; [| done].
    destruct (truthy (Some u0)); [| done].
    apply lookup_delete_ne. congruence.
  - unfold s', disconnect. by destruct (io s !! sid).
  - unfold disconnect at 1. by rewrite Hclosed.
Qed.

Lemma disconnect_affects_only_the_closing_socket_witness :
  let s := Demo.connect "c2" (Demo.bearer "tok-u3") 2
             (Demo.connect "c1" (Demo.bearer "tok-u1") 1 initial) in
  let s' := disconnect "c1" s in
  ¬ isOpen "c1" s' ∧
  roomsOf "c1" s' = ∅ ∧
  (∀ other, other ≠ "c1" →
     identityOf other s' = identityOf other s ∧
     roomsOf other s' = roomsOf other s) ∧
  (∀ u, userId (Demo.socket "c1" "u1" "student") ≠ Some u →
     connectedUsers s' !! u = connectedUsers s !! u) ∧
  sent s' = sent s ∧
  disconnect "c1" s' = s'.
Proof.
  intros s.
  apply (disconnect_affects_only_the_closing_socket "c1"
           (Demo.socket "c1" "u1" "student") s).
  reflexivity.
Defined.

Lemma registry_injective jwt db iso dts reserved (sv : Server)
  (u1 u2 sid : string) :
  reachable jwt db iso dts reserved sv →
  connectedUsers (manager sv) !! u1 = Some sid →
  connectedUsers (manager sv) !! u2 = Some sid →
  u1 = u2.
Proof.
  intros Hr H1 H2. destruct (reachable_wf _ _ _ _ _ _ Hr) as (_ & Hrw & _).
  destruct (Hrw u1 sid H1) as (_ & k1 & Hk1 & Hu1).
  destruct (Hrw u2 sid H2) as (_ & k2 & Hk2 & Hu2).
  congruence.
Qed.

(** X21: in every reachable state of the server, restored connections
    included, the connected-users count is at most the number of live
    sockets. *)
Theorem users_count_at_most_live_sockets jwt db iso dts reserved
  (sv : Server) :
  reachable jwt db iso dts reserved sv →
  (getConnectedUsersCount (manager sv) ≤ size (io (manager sv)))%nat.
Proof.
  intros Hr. unfold getConnectedUsersCount.
  rewrite <- !length_map_to_list.
  rewrite <- (length_fmap snd (map_to_list (connectedUsers (manager sv)))).
  rewrite <- (length_fmap fst (map_to_list (io (manager sv)))).
  apply submseteq_length, NoDup_submseteq.
  - apply NoDup_fmap_2_strong; [| apply NoDup_map_to_list].
    intros [u1 x1] [u2 x2] H1%elem_of_map_to_list H2%elem_of_map_to_list Heq.
    simpl in Heq. subst x2. f_equal.
    by apply (registry_injective jwt db iso dts reserved sv u1 u2 x1).
  - intros sid [[u x] [-> Hin%elem_of_map_to_list]]%list_elem_of_fmap.
    simpl. apply elem_of_live.
    destruct (reachable_wf _ _ _ _ _ _ Hr) as (_ & Hrw & _).
    destruct (Hrw u x Hin) as (_ & k & Hk & _).
    apply isOpen_identityOf. by eexists.
Qed.

Lemma users_count_at_most_live_sockets_witness :
  (getConnectedUsersCount (manager DemoServer.restored) ≤
   size (io (manager DemoServer.restored)))%nat.
Proof.
  apply (users_count_at_most_live_sockets Demo.jwt_verify Demo.findById
           Demo.toISOString Demo.dateToString Demo.reserved).
  exact demo_restored_reachable.
Defined.

(** ** Job rooms *)

Lemma roomsOf_onMessage_other iso dts (sid other : string) (m : ClientMsg)
  (now : Z) (s : SocketManager) :
  other ≠ sid →
  roomsOf other (onMessage iso dts sid m now s) = roomsOf other s.
Proof.
  intros Hne.
  destruct (onMessage_cases iso dts sid m now s)
    as [-> | [Ho [[x ->] | [[x ->] | (ev & data & ->)]]]]; [done | | | done].
  - rewrite roomsOf_socket_join. by rewrite decide_False.
  - rewrite roomsOf_socket_leave. by rewrite decide_False.
Qed.

(** X22: whether a live socket is in a job room is decided by its own last
    request for that room.  For a job id a template literal renders as
    [id]: after [join_job_room] the socket is in [job:id], after
    [leave_job_room] it is not, and no other message changes that: not a
    message of another socket, not a ping or a KYC status request, not a
    join or leave whose job id renders differently or not at all.  For a
    job id that cannot be rendered both listeners throw before they have
    joined or left anything. *)
Theorem job_room_follows_last_request iso dts (sid : string) (jobId : JsVal)
  (now : Z) (s : SocketManager) :
  isOpen sid s →
  (toString dts jobId = None →
     listener iso dts sid (JoinJobRoom jobId) now s = Threw s ∧
     listener iso dts sid (LeaveJobRoom jobId) now s = Threw s) ∧
  (∀ id, toString dts jobId = Some id →
     let room := "job:" +:+ id in
     listener iso dts sid (JoinJobRoom jobId) now s =
       Returned (onMessage iso dts sid (JoinJobRoom jobId) now s) ∧
     listener iso dts sid (LeaveJobRoom jobId) now s =
       Returned (onMessage iso dts sid (LeaveJobRoom jobId) now s) ∧
     room ∈ roomsOf sid (onMessage iso dts sid (JoinJobRoom jobId) now s) ∧
     (room ∉ roomsOf sid (onMessage iso dts sid (LeaveJobRoom jobId) now s)) ∧
     ∀ sid' m now',
       (sid' ≠ sid ∨ m = Ping ∨ m = KycStatusRequest ∨
        ∃ j, (m = JoinJobRoom j ∨ m = LeaveJobRoom j) ∧
             toString dts j ≠ Some id) →
       (room ∈ roomsOf sid (onMessage iso dts sid' m now' s) ↔
        room ∈ roomsOf sid s)).
Proof.
  intros Ho. pose proof Ho as [c Hc]. split.
  - intros Hnone. unfold listener. by rewrite Hc, Hnone.
  - intros id Hid room. split; [| split; [| split; [| split]]].
    + unfold onMessage, listener. by rewrite Hc, Hid.
    + unfold onMessage, listener. by rewrite Hc, Hid.
    + rewrite onMessage_join, Hc, Hid, roomsOf_socket_join.
      rewrite !decide_True by done. set_solver.
    + rewrite onMessage_leave, Hc, Hid, roomsOf_socket_leave.
      rewrite decide_True by done. set_solver.
    + intros sid' m now' Hcase.
      destruct (decide (sid' = sid)) as [-> | Hne];
        [| by rewrite roomsOf_onMessage_other].
      destruct Hcase as [? | [-> | [-> | (j & [-> | ->] & Hj)]]];
        [done | | | |].
      * unfold onMessage, listener. by rewrite Hc.
      * unfold onMessage, listener. rewrite Hc.
        destruct (userId (conn_socket c)) as [u|]; [| done].
        by destruct (truthy (Some u)).
      * rewrite onMessage_join, Hc.
        destruct (toString dts j) as [other|] eqn:Ej; [| done].
        assert (Hr : room ≠ "job:" +:+ other).
        { intros Heq. apply (inj (String.append "job:")) in Heq. congruence. }
        rewrite roomsOf_socket_join. rewrite !decide_True by done. set_solver.
      * rewrite onMessage_leave, Hc.
        destruct (toString dts j) as [other|] eqn:Ej; [| done].
        assert (Hr : room ≠ "job:" +:+ other).
        { intros Heq. apply (inj (String.append "job:")) in Heq. congruence. }
        rewrite roomsOf_socket_leave. rewrite decide_True by done. set_solver.
Qed.

Lemma job_room_follows_last_request_witness :
  let s := Demo.connect "c1" (Demo.bearer "tok-u2") 1 initial in
  let unrenderable := JObj {["toString" := JStr "x"]} in
  listener Demo.toISOString Demo.dateToString "c1"
    (JoinJobRoom unrenderable) 2 s = Threw s ∧
  "job:42" ∈ roomsOf "c1" (Demo.onMessage "c1" (JoinJobRoom (JStr "42")) 2 s) ∧
  ("job:42" ∉ roomsOf "c1" (Demo.onMessage "c1" (LeaveJobRoom (JStr "42")) 2 s)).
Proof.
  intros s unrenderable.
  assert (Ho : isOpen "c1" s) by (by vm_compute; eexists).
  destruct (job_room_follows_last_request Demo.toISOString Demo.dateToString
              "c1" unrenderable 2 s Ho) as [Hthrow _].
  destruct (job_room_follows_last_request Demo.toISOString Demo.dateToString
              "c1" (JStr "42") 2 s Ho) as [_ Hrender].
  destruct (Hrender "42" eq_refl) as (_ & _ & Hin & Hout & _).
  split; [exact (proj1 (Hthrow eq_refl)) | split; [exact Hin | exact Hout]].
Defined.

(** X23: in a reachable state of the server the three notifications
    addressed to one user, [emitNewApplication], [notifyJobRejected] and
    [notifyApplicationStatusUpdate] (the last two when they return), are
    each handed, once, to exactly the live sockets authenticated as that
    user; a restored socket, which carries no identity, is handed them
    exactly if its session placed it in the user's personal room.  The
    first spreads the payload into the event, the other two carry it under
    [job] and [application]. *)
Theorem user_notifications_reach_the_user jwt db iso dts reserved
  (sv : Server) (u sid : string) (payload : JsVal) (t : Z) :
  reachable jwt db iso dts reserved sv → db_roles_registered db →
  let s := manager sv in
  let audience (event : string) (data : JsVal) : list Packet :=
    match identityOf sid s with
    | Some k =>
        match userId k with
        | Some _ =>
            if decide (userId k = Some u ∧ u ≠ "")
            then [ {| pkt_to := sid; pkt_event := event; pkt_data := data |} ]
            else []
        | None =>
            if decide ("user:" +:+ u ∈ roomsOf sid s)
            then [ {| pkt_to := sid; pkt_event := event; pkt_data := data |} ]
            else []
        end
    | None => []
    end in
  received sid (emitted s (emitNewApplication u payload t s)) =
    audience "application:new"
      (JObj (<["timestamp" := JDate t]> (spread payload))) ∧
  (∀ s', notifyJobRejected iso dts payload u t s = Returned s' →
     ∃ ev, fieldsOf ev !! "job" = Some payload ∧
           received sid (emitted s s') = audience "job_rejected" ev) ∧
  (∀ s', notifyApplicationStatusUpdate iso dts payload u t s = Returned s' →
     ∃ ev, fieldsOf ev !! "application" = Some payload ∧
           received sid (emitted s s') =
             audience "application_status_update" ev).
Proof.
  intros Hr Hdb s audience.
  destruct (reachable_wf _ _ _ _ _ _ Hr) as (Hs & _ & Hroles).
  assert (Hroom : ∀ k, identityOf sid s = Some k → is_Some (userId k) →
            (sid ∈ membersOf ("user:" +:+ u) s ↔ userId k = Some u ∧ u ≠ "")).
  { intros k Hk Hid. apply members_of_user_room; try done. by apply Hroles. }
  split; [| split].
  - unfold emitNewApplication.
    by apply (received_by_audience (λ k, userId k = Some u ∧ u ≠ "")).
  - intros s'. unfold notifyJobRejected.
    destruct (getProp payload "jobTitle" ≫= toString dts) as [title|];
      [| discriminate].
    simpl. intros [= <-]. eexists. split;
      [| by apply (received_by_audience (λ k, userId k = Some u ∧ u ≠ ""))].
    simpl. by simplify_map_eq.
  - intros s'. unfold notifyApplicationStatusUpdate.
    destruct (getProp payload "status" ≫= toString dts) as [status|];
      [| discriminate].
    simpl. intros [= <-]. eexists. split;
      [| by apply (received_by_audience (λ k, userId k = Some u ∧ u ≠ ""))].
    simpl. by simplify_map_eq.
Qed.

Lemma user_notifications_reach_the_user_witness :
  let s := manager DemoServer.two_sockets in
  let payload := JObj {["status" := JStr "shortlisted"]} in
  ∃ ev s',
    notifyApplicationStatusUpdate Demo.toISOString Demo.dateToString
      payload "u1" 9 s = Returned s' ∧
    fieldsOf ev !! "application" = Some payload ∧
    received "c1" (emitted s s') =
      [ {| pkt_to := "c1"; pkt_event := "application_status_update";
           pkt_data := ev |} ] ∧
    received "c2" (emitted s s') = [].
Proof.
  intros s payload.
  destruct (user_notifications_reach_the_user Demo.jwt_verify Demo.findById
              Demo.toISOString Demo.dateToString Demo.reserved
              DemoServer.two_sockets "u1" "c1" payload 9
              demo_two_sockets_reachable demo_roles_registered)
    as (_ & _ & Hstatus).
  destruct (Hstatus _ eq_refl) as (ev & Happ & Hrecv).
  exists ev. eexists. split; [reflexivity |]. split; [exact Happ |].
  split; [exact Hrecv | reflexivity].
Defined.

(** ** Health ping *)

(** X24: a ping from a live socket is answered with exactly one ['pong']
    to that socket, carrying the server time at arrival, whether or not the
    socket has an identity attached; registry, sockets and rooms stay as
    they are. *)
Theorem ping_is_answered_with_pong iso dts (sid : string) (now : Z)
  (s : SocketManager) :
  isOpen sid s →
  let s' := onMessage iso dts sid Ping now s in
  emitted s s' =
    [ {| pkt_to := sid; pkt_event := "pong";
         pkt_data := JObj {["timestamp" := JStr (iso now)]} |} ] ∧
  io s' = io s ∧ connectedUsers s' = connectedUsers s.
Proof.
  intros [c Hc] s'. unfold s', onMessage, listener. rewrite Hc.
  repeat split; try done.
  unfold emitted, socket_emit; simpl. by rewrite drop_app_length.
Qed.

Lemma ping_is_answered_with_pong_witness :
  let s := onConnection Demo.toISOString
             {| socket_id := "c9"; userId := None; userType := None;
                userEmail := None |} 1 initial in
  let s' := Demo.onMessage "c9" Ping 5 s in
  emitted s s' =
    [ {| pkt_to := "c9"; pkt_event := "pong";
         pkt_data := JObj {["timestamp" := JStr (Demo.toISOString 5)]} |} ] ∧
  io s' = io s ∧ connectedUsers s' = connectedUsers s.
Proof.
  intros s.
  apply (ping_is_answered_with_pong Demo.toISOString Demo.dateToString
           "c9" 5 s).
  by vm_compute; eexists.
Defined.
